(** * Dream-to-Story: the reply parser, the prompt, and the submit handler

    A shallow embedding of [app.py].  The file has three layers:

    - [PyStr]: the Python [str] operations the program calls
      ([upper], [strip], [splitlines], [find], [in], slicing, [join]);
    - [Hashlib]: [str.encode("utf-8")] and [hashlib.sha1(..).hexdigest()];
    - [App]: [analyze_mood], [generate_story_and_moral] and the body of
      [if submit:], written in a small state-and-exception monad over a
      world that records service calls, widgets and the file system.

    The theorems come after the definitions. *)

From Stdlib Require Import ZArith NArith QArith List Ascii String Lia Bool.
From stdpp Require Import base list gmap.
Import ListNotations.

(** ** Python strings *)

Module PyStr.

(** A Python [str] is a sequence of Unicode code points. *)
Abbreviation str := (list N).

(** An ASCII literal of the source, read as code points. *)
Definition lit (s : string) : str :=
  map N_of_ascii (list_ascii_of_string s).

(** *** [str.upper]

    CPython uppercases code point by code point with Unicode's full case
    mapping, so one character may become two or three.  The mapping is that
    of Unicode 14.0 (CPython 3.11).  One-to-one mappings are stored as runs
    [(lo, hi, step, up_lo)]: every [step]-th code point [c] from [lo] to
    [hi] maps to [up_lo + (c - lo)]. *)
Definition upper_runs : list (N * N * N * N) :=
  [
   (97, 122, 1, 65); (181, 181, 1, 924); (224, 246, 1, 192);
   (248, 254, 1, 216); (255, 255, 1, 376); (257, 303, 2, 256);
   (305, 305, 1, 73); (307, 311, 2, 306); (314, 328, 2, 313);
   (331, 375, 2, 330); (378, 382, 2, 377); (383, 383, 1, 83);
   (384, 384, 1, 579); (387, 389, 2, 386); (392, 392, 1, 391);
   (396, 396, 1, 395); (402, 402, 1, 401); (405, 405, 1, 502);
   (409, 409, 1, 408); (410, 410, 1, 573); (414, 414, 1, 544);
   (417, 421, 2, 416); (424, 424, 1, 423); (429, 429, 1, 428);
   (432, 432, 1, 431); (436, 438, 2, 435); (441, 441, 1, 440);
   (445, 445, 1, 444); (447, 447, 1, 503); (453, 453, 1, 452);
   (454, 454, 1, 452); (456, 456, 1, 455); (457, 457, 1, 455);
   (459, 459, 1, 458); (460, 460, 1, 458); (462, 476, 2, 461);
   (477, 477, 1, 398); (479, 495, 2, 478); (498, 498, 1, 497);
   (499, 499, 1, 497); (501, 501, 1, 500); (505, 543, 2, 504);
   (547, 563, 2, 546); (572, 572, 1, 571); (575, 576, 1, 11390);
   (578, 578, 1, 577); (583, 591, 2, 582); (592, 592, 1, 11375);
   (593, 593, 1, 11373); (594, 594, 1, 11376); (595, 595, 1, 385);
   (596, 596, 1, 390); (598, 599, 1, 393); (601, 601, 1, 399);
   (603, 603, 1, 400); (604, 604, 1, 42923); (608, 608, 1, 403);
   (609, 609, 1, 42924); (611, 611, 1, 404); (613, 613, 1, 42893);
   (614, 614, 1, 42922); (616, 616, 1, 407); (617, 617, 1, 406);
   (618, 618, 1, 42926); (619, 619, 1, 11362); (620, 620, 1, 42925);
   (623, 623, 1, 412); (625, 625, 1, 11374); (626, 626, 1, 413);
   (629, 629, 1, 415); (637, 637, 1, 11364); (640, 640, 1, 422);
   (642, 642, 1, 42949); (643, 643, 1, 425); (647, 647, 1, 42929);
   (648, 648, 1, 430); (649, 649, 1, 580); (650, 651, 1, 433);
   (652, 652, 1, 581); (658, 658, 1, 439); (669, 669, 1, 42930);
   (670, 670, 1, 42928); (837, 837, 1, 921); (881, 883, 2, 880);
   (887, 887, 1, 886); (891, 893, 1, 1021); (940, 940, 1, 902);
   (941, 943, 1, 904); (945, 961, 1, 913); (962, 962, 1, 931);
   (963, 971, 1, 931); (972, 972, 1, 908); (973, 974, 1, 910);
   (976, 976, 1, 914); (977, 977, 1, 920); (981, 981, 1, 934);
   (982, 982, 1, 928); (983, 983, 1, 975); (985, 1007, 2, 984);
   (1008, 1008, 1, 922); (1009, 1009, 1, 929); (1010, 1010, 1, 1017);
   (1011, 1011, 1, 895); (1013, 1013, 1, 917); (1016, 1016, 1, 1015);
   (1019, 1019, 1, 1018); (1072, 1103, 1, 1040); (1104, 1119, 1, 1024);
   (1121, 1153, 2, 1120); (1163, 1215, 2, 1162); (1218, 1230, 2, 1217);
   (1231, 1231, 1, 1216); (1233, 1327, 2, 1232); (1377, 1414, 1, 1329);
   (4304, 4346, 1, 7312); (4349, 4351, 1, 7357); (5112, 5117, 1, 5104);
   (7296, 7296, 1, 1042); (7297, 7297, 1, 1044); (7298, 7298, 1, 1054);
   (7299, 7300, 1, 1057); (7301, 7301, 1, 1058); (7302, 7302, 1, 1066);
   (7303, 7303, 1, 1122); (7304, 7304, 1, 42570); (7545, 7545, 1, 42877);
   (7549, 7549, 1, 11363); (7566, 7566, 1, 42950); (7681, 7829, 2, 7680);
   (7835, 7835, 1, 7776); (7841, 7935, 2, 7840); (7936, 7943, 1, 7944);
   (7952, 7957, 1, 7960); (7968, 7975, 1, 7976); (7984, 7991, 1, 7992);
   (8000, 8005, 1, 8008); (8017, 8023, 2, 8025); (8032, 8039, 1, 8040);
   (8048, 8049, 1, 8122); (8050, 8053, 1, 8136); (8054, 8055, 1, 8154);
   (8056, 8057, 1, 8184); (8058, 8059, 1, 8170); (8060, 8061, 1, 8186);
   (8112, 8113, 1, 8120); (8126, 8126, 1, 921); (8144, 8145, 1, 8152);
   (8160, 8161, 1, 8168); (8165, 8165, 1, 8172); (8526, 8526, 1, 8498);
   (8560, 8575, 1, 8544); (8580, 8580, 1, 8579); (9424, 9449, 1, 9398);
   (11312, 11359, 1, 11264); (11361, 11361, 1, 11360);
   (11365, 11365, 1, 570); (11366, 11366, 1, 574); (11368, 11372, 2, 11367);
   (11379, 11379, 1, 11378); (11382, 11382, 1, 11381);
   (11393, 11491, 2, 11392); (11500, 11502, 2, 11499);
   (11507, 11507, 1, 11506); (11520, 11557, 1, 4256);
   (11559, 11559, 1, 4295); (11565, 11565, 1, 4301);
   (42561, 42605, 2, 42560); (42625, 42651, 2, 42624);
   (42787, 42799, 2, 42786); (42803, 42863, 2, 42802);
   (42874, 42876, 2, 42873); (42879, 42887, 2, 42878);
   (42892, 42892, 1, 42891); (42897, 42899, 2, 42896);
   (42900, 42900, 1, 42948); (42903, 42921, 2, 42902);
   (42933, 42947, 2, 42932); (42952, 42954, 2, 42951);
   (42961, 42961, 1, 42960); (42967, 42969, 2, 42966);
   (42998, 42998, 1, 42997); (43859, 43859, 1, 42931);
   (43888, 43967, 1, 5024); (65345, 65370, 1, 65313);
   (66600, 66639, 1, 66560); (66776, 66811, 1, 66736);
   (66967, 66977, 1, 66928); (66979, 66993, 1, 66940);
   (66995, 67001, 1, 66956); (67003, 67004, 1, 66964);
   (68800, 68850, 1, 68736); (71872, 71903, 1, 71840);
   (93792, 93823, 1, 93760); (125218, 125251, 1, 125184)
  ]%N.

(** Code points whose uppercase form is more than one code point. *)
Definition upper_expansions : list (N * list N) :=
  [
   (223, [83; 83]); (329, [700; 78]); (496, [74; 780]);
   (912, [921; 776; 769]); (944, [933; 776; 769]); (1415, [1333; 1362]);
   (7830, [72; 817]); (7831, [84; 776]); (7832, [87; 778]);
   (7833, [89; 778]); (7834, [65; 702]); (8016, [933; 787]);
   (8018, [933; 787; 768]); (8020, [933; 787; 769]); (8022, [933; 787; 834]);
   (8064, [7944; 921]); (8065, [7945; 921]); (8066, [7946; 921]);
   (8067, [7947; 921]); (8068, [7948; 921]); (8069, [7949; 921]);
   (8070, [7950; 921]); (8071, [7951; 921]); (8072, [7944; 921]);
   (8073, [7945; 921]); (8074, [7946; 921]); (8075, [7947; 921]);
   (8076, [7948; 921]); (8077, [7949; 921]); (8078, [7950; 921]);
   (8079, [7951; 921]); (8080, [7976; 921]); (8081, [7977; 921]);
   (8082, [7978; 921]); (8083, [7979; 921]); (8084, [7980; 921]);
   (8085, [7981; 921]); (8086, [7982; 921]); (8087, [7983; 921]);
   (8088, [7976; 921]); (8089, [7977; 921]); (8090, [7978; 921]);
   (8091, [7979; 921]); (8092, [7980; 921]); (8093, [7981; 921]);
   (8094, [7982; 921]); (8095, [7983; 921]); (8096, [8040; 921]);
   (8097, [8041; 921]); (8098, [8042; 921]); (8099, [8043; 921]);
   (8100, [8044; 921]); (8101, [8045; 921]); (8102, [8046; 921]);
   (8103, [8047; 921]); (8104, [8040; 921]); (8105, [8041; 921]);
   (8106, [8042; 921]); (8107, [8043; 921]); (8108, [8044; 921]);
   (8109, [8045; 921]); (8110, [8046; 921]); (8111, [8047; 921]);
   (8114, [8122; 921]); (8115, [913; 921]); (8116, [902; 921]);
   (8118, [913; 834]); (8119, [913; 834; 921]); (8124, [913; 921]);
   (8130, [8138; 921]); (8131, [919; 921]); (8132, [905; 921]);
   (8134, [919; 834]); (8135, [919; 834; 921]); (8140, [919; 921]);
   (8146, [921; 776; 768]); (8147, [921; 776; 769]); (8150, [921; 834]);
   (8151, [921; 776; 834]); (8162, [933; 776; 768]); (8163, [933; 776; 769]);
   (8164, [929; 787]); (8166, [933; 834]); (8167, [933; 776; 834]);
   (8178, [8186; 921]); (8179, [937; 921]); (8180, [911; 921]);
   (8182, [937; 834]); (8183, [937; 834; 921]); (8188, [937; 921]);
   (64256, [70; 70]); (64257, [70; 73]); (64258, [70; 76]);
   (64259, [70; 70; 73]); (64260, [70; 70; 76]); (64261, [83; 84]);
   (64262, [83; 84]); (64275, [1348; 1350]); (64276, [1348; 1333]);
   (64277, [1348; 1339]); (64278, [1358; 1350]); (64279, [1348; 1341])
  ]%N.

Definition in_run (c : N) (r : N * N * N * N) : bool :=
  let '(lo, hi, step, _) := r in
  (lo <=? c)%N && (c <=? hi)%N && ((c - lo) mod step =? 0)%N.

Definition upper_char (c : N) : list N :=
  match List.find (fun e => (fst e =? c)%N) upper_expansions with
  | Some e => snd e
  | None =>
      match List.find (in_run c) upper_runs with
      | Some (lo, _, _, up_lo) => [(up_lo + (c - lo))%N]
      | None => [c]
      end
  end.

Definition upper (s : str) : str := flat_map upper_char s.

(** *** [str.strip]: the characters for which [str.isspace] holds *)
Definition isspace (c : N) : bool :=
  ((9 <=? c) && (c <=? 13) || (28 <=? c) && (c <=? 32)
   || (c =? 133) || (c =? 160) || (c =? 5760)
   || (8192 <=? c) && (c <=? 8202) || (c =? 8232) || (c =? 8233)
   || (c =? 8239) || (c =? 8287) || (c =? 12288))%N.

Fixpoint lstrip (s : str) : str :=
  match s with
  | c :: s' => if isspace c then lstrip s' else s
  | [] => []
  end.

Definition rstrip (s : str) : str := rev (lstrip (rev s)).

Definition strip (s : str) : str := rstrip (lstrip s).

(** *** [str.splitlines] (line boundaries removed) *)
Definition is_linebreak (c : N) : bool :=
  ((10 <=? c) && (c <=? 13) || (28 <=? c) && (c <=? 30)
   || (c =? 133) || (c =? 8232) || (c =? 8233))%N.

(** [cur] is the line read so far; a carriage return directly followed by a
    line feed is one boundary; a last line without boundary is kept unless
    it is empty. *)
Fixpoint splitlines_from (cur s : str) : list str :=
  match s with
  | [] => match cur with [] => [] | _ => [cur] end
  | c :: s' =>
      if is_linebreak c then
        cur :: match s' with
               | d :: s'' =>
                   if ((c =? 13) && (d =? 10))%N
                   then splitlines_from [] s''
                   else splitlines_from [] s'
               | [] => []
               end
      else splitlines_from (cur ++ [c]) s'
  end.

Definition splitlines (s : str) : list str := splitlines_from [] s.

(** *** Substring search: [sub in s] and [s.find(sub)] *)
Fixpoint startswith (sub s : str) : bool :=
  match sub, s with
  | [], _ => true
  | _ :: _, [] => false
  | a :: sub', b :: s' => (a =? b)%N && startswith sub' s'
  end.

Fixpoint contains (sub s : str) : bool :=
  startswith sub s || match s with [] => false | _ :: s' => contains sub s' end.

(** [find_from sub s i] is [s.find(sub)] shifted by [i]; [-1] when [sub]
    does not occur. *)
Fixpoint find_from (sub s : str) (i : Z) : Z :=
  if startswith sub s then i
  else match s with
       | [] => (-1)%Z
       | _ :: s' => find_from sub s' (i + 1)%Z
       end.

Definition find (sub s : str) : Z := find_from sub s 0%Z.

(** *** Slicing [s[start:stop]] and [s[start:]]

    A negative index counts from the end; indices are then clamped to
    [0 .. len(s)]; an empty range gives the empty string. *)
Definition clamp_index (len i : Z) : Z :=
  (if i <? 0 then Z.max 0 (i + len) else Z.min i len)%Z.

Definition slice (s : str) (start stop : Z) : str :=
  let len := Z.of_nat (length s) in
  let a := clamp_index len start in
  let b := clamp_index len stop in
  take (Z.to_nat (b - a)) (drop (Z.to_nat a) s).

Definition slice_from (s : str) (start : Z) : str :=
  drop (Z.to_nat (clamp_index (Z.of_nat (length s)) start)) s.

(** *** [sep.join(parts)] *)
Fixpoint join (sep : str) (parts : list str) : str :=
  match parts with
  | [] => []
  | [p] => p
  | p :: rest => p ++ sep ++ join sep rest
  end.

End PyStr.

(** ** [str.encode("utf-8")] and [hashlib.sha1] *)

Module Hashlib.
Import PyStr.

Local Open Scope N_scope.

(** A [bytes] object: a sequence of numbers below 256. *)
Definition bytes := list N.

(** One code point in UTF-8.  The strict codec refuses the surrogates
    U+D800..U+DFFF ([UnicodeEncodeError]); a [str] holds nothing above
    U+10FFFF. *)
Definition encode_char (c : N) : option bytes :=
  if c <? 128 then Some [c]
  else if c <? 2048 then
    Some [N.lor 192 (N.shiftr c 6); N.lor 128 (N.land c 63)]
  else if c <? 65536 then
    if (55296 <=? c) && (c <=? 57343) then None
    else Some [N.lor 224 (N.shiftr c 12);
               N.lor 128 (N.land (N.shiftr c 6) 63);
               N.lor 128 (N.land c 63)]
  else if c <? 1114112 then
    Some [N.lor 240 (N.shiftr c 18);
          N.lor 128 (N.land (N.shiftr c 12) 63);
          N.lor 128 (N.land (N.shiftr c 6) 63);
          N.lor 128 (N.land c 63)]
  else None.

Fixpoint encode (s : str) : option bytes :=
  match s with
  | [] => Some []
  | c :: s' =>
      match encode_char c, encode s' with
      | Some b, Some bs => Some (b ++ bs)
      | _, _ => None
      end
  end.

(** *** SHA-1 (FIPS 180-4) on 32-bit words *)
Definition w32 (x : N) : N := x mod 4294967296.

Definition add32 (x y : N) : N := w32 (x + y).

Definition rotl (n x : N) : N :=
  N.lor (w32 (N.shiftl x n)) (N.shiftr x (32 - n)).

Definition not32 (x : N) : N := N.lxor x 4294967295.

(** Message padding: a 1 bit, zeros up to 56 mod 64 bytes, then the bit
    length as a 64-bit big-endian number. *)
Definition be_bytes (n : nat) (x : N) : bytes :=
  map (fun i => N.land (N.shiftr x (8 * N.of_nat i)) 255) (rev (seq 0 n)).

Definition pad (msg : bytes) : bytes :=
  let len := N.of_nat (length msg) in
  msg ++ [128] ++ repeat 0 (N.to_nat ((119 - len mod 64) mod 64))
      ++ be_bytes 8 (8 * len).

Definition be_word (b : bytes) : N :=
  fold_left (fun acc x => 256 * acc + x) b 0.

(** [n] big-endian words from the front of [b]. *)
Fixpoint words (n : nat) (b : bytes) : list N :=
  match n with
  | O => []
  | S n' => be_word (take 4 b) :: words n' (drop 4 b)
  end.

(** The message schedule: 16 words of the block extended to 80. *)
Fixpoint schedule (n : nat) (w : list N) : list N :=
  match n with
  | O => w
  | S n' =>
      let t := length w in
      let x := N.lxor (N.lxor (nth (t - 3) w 0) (nth (t - 8) w 0))
                      (N.lxor (nth (t - 14) w 0) (nth (t - 16) w 0)) in
      schedule n' (w ++ [rotl 1 x])
  end.

Definition f (t : nat) (b c d : N) : N :=
  if (t <? 20)%nat then N.lor (N.land b c) (N.land (not32 b) d)
  else if (t <? 40)%nat then N.lxor (N.lxor b c) d
  else if (t <? 60)%nat then
    N.lor (N.lor (N.land b c) (N.land b d)) (N.land c d)
  else N.lxor (N.lxor b c) d.

Definition K (t : nat) : N :=
  if (t <? 20)%nat then 1518500249
  else if (t <? 40)%nat then 1859775393
  else if (t <? 60)%nat then 2400959708
  else 3395469782.

Definition state : Type := N * N * N * N * N.

Definition round (st : state) (tw : nat * N) : state :=
  let '(a, b, c, d, e) := st in
  let '(t, w) := tw in
  let tmp := add32 (add32 (add32 (add32 (rotl 5 a) (f t b c d)) e) (K t)) w in
  (tmp, a, rotl 30 b, c, d).

Definition compress (h : state) (block : bytes) : state :=
  let w := schedule 64 (words 16 block) in
  let '(a, b, c, d, e) := fold_left round (combine (seq 0 80) w) h in
  let '(h0, h1, h2, h3, h4) := h in
  (add32 h0 a, add32 h1 b, add32 h2 c, add32 h3 d, add32 h4 e).

(** [n] blocks of 64 bytes, in order. *)
Fixpoint blocks (n : nat) (h : state) (b : bytes) : state :=
  match n with
  | O => h
  | S n' => blocks n' (compress h (take 64 b)) (drop 64 b)
  end.

Definition sha1 (msg : bytes) : state :=
  let p := pad msg in
  blocks (length p / 64)%nat
    (1732584193, 4023233417, 2562383102, 271733878, 3285377520) p.

(** *** [hexdigest]: forty lowercase hexadecimal digits *)
Definition hex_digit (n : N) : N := if n <? 10 then 48 + n else 87 + n.

Definition hex_word (x : N) : str :=
  map (fun i => hex_digit (N.land (N.shiftr x (4 * N.of_nat i)) 15))
      (rev (seq 0 8)).

Definition hexdigest (h : state) : str :=
  let '(h0, h1, h2, h3, h4) := h in
  hex_word h0 ++ hex_word h1 ++ hex_word h2 ++ hex_word h3 ++ hex_word h4.

End Hashlib.

(** ** The application *)

Module App.
Import PyStr Hashlib.

(** *** Exceptions, the completion service, the world *)

Inductive exn : Type :=
| IndexError
| AttributeError
| UnicodeEncodeError
| FileExistsError
| IsADirectoryError
| OSError
| APIError (detail : str).

(** The keyword arguments of [client.chat.completions.create]; a message
    is a role and a content. *)
Record Request : Type := {
  model : str;
  messages : list (str * str);
  temperature : Q;
  max_tokens : N
}.

(** What the program reads of a response: [choices[i].message.content],
    which the service may leave [None]. *)
Abbreviation Response := (list (option str)).

(** The service answers a request or raises.  Sampling is stochastic, so
    the answer may depend on how many requests came before. *)
Record Client : Type := {
  create : nat -> Request -> exn + Response
}.

(** The [st.*] calls of the submit branch, in the order they are made. *)
Inductive Widget : Type :=
| warning (body : str)
| info (body : str)
| spinner (text : str)
| subheader (body : str)
| write (body : str)
| download_button (label data file_name : str).

Record World : Type := {
  calls : list Request;
  widgets : list Widget;
  dirs : gset str;
  files : gmap str bytes;
  read_only : bool
}.

Definition log_call (r : Request) (w : World) : World :=
  {| calls := calls w ++ [r]; widgets := widgets w; dirs := dirs w;
     files := files w; read_only := read_only w |}.

Definition show (x : Widget) (w : World) : World :=
  {| calls := calls w; widgets := widgets w ++ [x]; dirs := dirs w;
     files := files w; read_only := read_only w |}.

Definition add_dir (d : str) (w : World) : World :=
  {| calls := calls w; widgets := widgets w; dirs := {[d]} ∪ dirs w;
     files := files w; read_only := read_only w |}.

Definition put_file (name : str) (data : bytes) (w : World) : World :=
  {| calls := calls w; widgets := widgets w; dirs := dirs w;
     files := <[name := data]> (files w); read_only := read_only w |}.

(** *** A state and exception monad *)

Inductive Result (A : Type) : Type :=
| Ok (a : A)
| Raise (e : exn).
Arguments Ok {A} a.
Arguments Raise {A} e.

Definition M (A : Type) : Type := World -> Result A * World.

Definition ret {A} (a : A) : M A := fun w => (Ok a, w).

Definition raise {A} (e : exn) : M A := fun w => (Raise e, w).

Definition bind {A B} (c : M A) (k : A -> M B) : M B :=
  fun w => match c w with
           | (Ok a, w') => k a w'
           | (Raise e, w') => (Raise e, w')
           end.

Definition try_except {A} (body : M A) (handler : exn -> M A) : M A :=
  fun w => match body w with
           | (Ok a, w') => (Ok a, w')
           | (Raise e, w') => handler e w'
           end.

Notation "x <- c ;; k" := (bind c (fun x => k))
  (at level 100, c at next level, right associativity).
Notation "c ;; k" := (bind c (fun _ => k))
  (at level 100, right associativity).

(** *** Library calls *)

Definition chat_completions_create (cl : Client) (r : Request) : M Response :=
  fun w => match create cl (length (calls w)) r with
           | inl e => (Raise e, log_call r w)
           | inr resp => (Ok resp, log_call r w)
           end.

(** [resp.choices[0].message.content], on which [.strip()] is then
    called. *)
Definition first_content (resp : Response) : M str :=
  match resp with
  | [] => raise IndexError
  | None :: _ => raise AttributeError
  | Some content :: _ => ret content
  end.

Definition st (x : Widget) : M unit := fun w => (Ok tt, show x w).

(** [os.makedirs(path, exist_ok=True)] for a path of one component. *)
Definition os_makedirs (path : str) : M unit :=
  fun w =>
    if decide (path ∈ dirs w) then (Ok tt, w)
    else if decide (is_Some (files w !! path)) then (Raise FileExistsError, w)
    else if read_only w then (Raise OSError, w)
    else (Ok tt, add_dir path w).

(** [open(fname, "w", encoding="utf-8")]: the file is created or
    truncated. *)
Definition open_w (fname : str) : M unit :=
  fun w =>
    if decide (fname ∈ dirs w) then (Raise IsADirectoryError, w)
    else if read_only w then (Raise OSError, w)
    else (Ok tt, put_file fname [] w).

(** [f.write(text)] followed by the close at the end of [with]. *)
Definition f_write (fname text : str) : M unit :=
  match encode text with
  | None => raise UnicodeEncodeError
  | Some data => fun w => (Ok tt, put_file fname data w)
  end.

Definition str_encode (s : str) : M bytes :=
  match encode s with
  | None => raise UnicodeEncodeError
  | Some b => ret b
  end.

(** Truth value of a [str]. *)
Definition truthy (s : str) : bool :=
  match s with [] => false | _ :: _ => true end.

Definition len (s : str) : Z := Z.of_nat (length s).

(** *** The functions of [app.py] *)

Section Program.

(** The module-level [client]: [None] when [OPENAI_API_KEY] is unset. *)
Variable client : option Client.

(** Python's [str(e)] for an exception. *)
Variable exn_str : exn -> str.

Definition analyze_mood (dream_text : str) : M str :=
  match client with
  | None => ret (lit "Unknown (no API key)")
  | Some cl =>
      let system :=
        lit "You are a short-text mood classifier for dreams. "
        ++ lit "Given a user dream text, reply with one short mood label only. "
        ++ lit "Choose from: Scary, Happy, Peaceful, Anxious, Confusing, Exciting, Sad, Surreal, Neutral." in
      resp <- chat_completions_create cl
                {| model := lit "gpt-4o-mini";
                   messages := [(lit "system", system);
                                (lit "user", dream_text)];
                   temperature := 0;
                   max_tokens := 30 |} ;;
      content <- first_content resp ;;
      let label := strip content in
      ret label
  end.

(** The dictionary literal of lines 79-82. *)
Definition length_hints : gmap str str :=
  <[lit "Short" := lit "Keep it very short (3-5 sentences)."]>
  (<[lit "Medium" := lit "Make it medium length (5-8 sentences)."]>
  (<[lit "Long" := lit "Make it longer (8-12 sentences)."]> ∅)).

(** [{...}.get(length, "Keep it short.")] *)
Definition length_hint (length : str) : str :=
  default (lit "Keep it short.") (length_hints !! length).

Definition prompt (dream_text genre length : str) : str :=
  lit "User dream: " ++ dream_text ++ [10%N]
  ++ lit "Genre: " ++ genre ++ [10%N]
  ++ lit "Length hint: " ++ length_hint length ++ [10%N]
  ++ lit "Write a short creative story inspired by the dream. Then write a one-sentence moral.".

(** Line 117: the non-empty lines of the reply, each one stripped. *)
Definition lines (text : str) : list str :=
  map strip (List.filter (fun ln => truthy (strip ln)) (splitlines text)).

(** Lines 104-122: the split of the stripped reply into story and moral. *)
Definition story_and_moral (text : str) : str * str :=
  if contains (lit "STORY:") (upper text)
     && contains (lit "MORAL:") (upper text)
  then
    let up := upper text in
    let s_idx := find (lit "STORY:") up in
    let m_idx := find (lit "MORAL:") up in
    let story := strip (slice text (s_idx + len (lit "STORY:")) m_idx) in
    let moral := strip (slice_from text (m_idx + len (lit "MORAL:"))) in
    (story, moral)
  else
    let lines := lines text in
    if (2 <=? length lines)%nat
    then (join [10%N] (List.removelast lines), List.last lines [])
    else (text, []).

Definition generate_story_and_moral (dream_text genre length : str)
  : M (str * str) :=
  match client with
  | None => ret (lit "(API key missing)", [])
  | Some cl =>
      let system :=
        lit "You are a creative writer who converts people's dreams into short fictional stories. "
        ++ lit "Respond in two labeled sections: STORY: <story text> and MORAL: <one-sentence moral>. "
        ++ lit "Keep language simple and vivid. Respect the chosen genre and requested length." in
      resp <- chat_completions_create cl
                {| model := lit "gpt-4o-mini";
                   messages := [(lit "system", system);
                                (lit "user", prompt dream_text genre length)];
                   temperature := 0.7;
                   max_tokens := 550 |} ;;
      content <- first_content resp ;;
      let text := strip content in
      ret (story_and_moral text)
  end.

(** Line 159: the text offered for download and written to the file. *)
Definition full_text (dream_input mood story moral : str) : str :=
  lit "Dream:" ++ [10%N] ++ dream_input ++ [10%N; 10%N]
  ++ lit "Mood: " ++ mood ++ [10%N; 10%N]
  ++ lit "Story:" ++ [10%N] ++ story ++ [10%N; 10%N]
  ++ lit "Moral:" ++ [10%N] ++ moral ++ [10%N].

(** Lines 164-170, the body of [try]. *)
Definition save_locally (dream_input full_text : str) : M unit :=
  os_makedirs (lit "stories") ;;
  b <- str_encode dream_input ;;
  let h := slice (hexdigest (sha1 b)) 0 8 in
  let fname := lit "stories/dream_" ++ h ++ lit ".txt" in
  open_w fname ;;
  f_write fname full_text ;;
  st (info (lit "Saved locally: " ++ fname)).

(** Lines 142-172, the body of [if submit:]. *)
Definition submit_handler (dream_input genre length : str) : M unit :=
  if negb (truthy (strip dream_input)) then
    st (warning (lit "Please enter a dream description before clicking Create Story."))
  else
    st (spinner (lit "Analyzing dream and writing story...")) ;;
    mood <- analyze_mood dream_input ;;
    sm <- generate_story_and_moral dream_input genre length ;;
    let '(story, moral) := sm in
    st (subheader ([128270%N] ++ lit " Dream Mood")) ;;
    st (write mood) ;;
    st (subheader ([128214%N] ++ lit " Story")) ;;
    st (write story) ;;
    st (subheader ([128161%N] ++ lit " Moral")) ;;
    st (write (if truthy moral then moral
               else lit "(No explicit moral generated.)")) ;;
    let full_text := full_text dream_input mood story moral in
    st (download_button (lit "Download story as .txt") full_text
          (lit "dream_story.txt")) ;;
    try_except (save_locally dream_input full_text)
      (fun e => st (warning (lit "Could not save locally: " ++ exn_str e))).

End Program.

End App.

(** ** The rest of the script: start-up and the example buttons *)

Module Script.
Import PyStr App.

(** *** Lines 26-34: the key and the client *)

(** [load_dotenv()] adds the entries of the [.env] file to the process
    environment and leaves alone a name that is already set. *)
Definition load_dotenv (dotenv environ : gmap str str) : gmap str str :=
  environ ∪ dotenv.

Section Startup.

(** The constructor [OpenAI(api_key=...)]. *)
Variable OpenAI : str -> Client.

(** Truth value of what [os.getenv] returns: [None] and the empty string
    are false. *)
Definition is_set (api_key : option str) : bool :=
  match api_key with
  | Some k => truthy k
  | None => false
  end.

(** The result is the module-level [client]. *)
Definition startup (dotenv environ : gmap str str) : M (option Client) :=
  let environ := load_dotenv dotenv environ in
  let api_key := environ !! lit "OPENAI_API_KEY" in
  (if negb (is_set api_key) then
     st (warning (lit "OPENAI_API_KEY not found. Please set it as an environment variable or in a .env file."))
   else ret tt) ;;
  let client :=
    if is_set api_key then option_map OpenAI api_key else None in
  ret client.

End Startup.

(** *** Lines 174-197: tips, example buttons, rerun *)

Inductive Element : Type :=
| markdown (body : str)
| columns (n : nat)
| button (label : str)
| caption (body : str).

(** What this part of the script reads and writes: [st.session_state], the
    query parameters of the page, and the elements rendered so far. *)
Record Session : Type := {
  session_state : gmap str str;
  query_params : gmap str (list str);
  page : list Element
}.

(** [st.experimental_rerun()] stops the run and asks for another one. *)
Inductive Control : Type :=
| Finished
| Rerun.

Definition render (x : Element) (s : Session) : Session :=
  {| session_state := session_state s; query_params := query_params s;
     page := page s ++ [x] |}.

(** [st.session_state[key] = value] *)
Definition set_state (key value : str) (s : Session) : Session :=
  {| session_state := <[key := value]> (session_state s);
     query_params := query_params s; page := page s |}.

(** [st.experimental_set_query_params()] with no argument. *)
Definition experimental_set_query_params (s : Session) : Session :=
  {| session_state := session_state s; query_params := ∅; page := page s |}.

Definition tips : str :=
  lit "**Tips:**" ++ [10%N]
  ++ lit "- Write 1-3 lines for a clearer story." ++ [10%N]
  ++ lit "- You can write in Urdu or English." ++ [10%N]
  ++ lit "- If you want more poetic language, increase the temperature in the code." ++ [10%N]
  ++ lit "- Keep your API key private.".

(** [flying], [lost] and [exam] are what the three [button] calls return:
    whether that button was clicked for this run. *)
Definition footer (flying lost exam : bool) (s : Session) : Control * Session :=
  let s := render (markdown (lit "---")) s in
  let s := render (markdown tips) s in
  let s := render (markdown (lit "**Try these example dreams:**")) s in
  let s := render (columns 3) s in
  let s := render (button (lit "Flying over mountains")) s in
  let s :=
    if flying then
      set_state (lit "__autofill")
        (lit "I was flying over snow-capped mountains and suddenly the sky turned purple.")
        (experimental_set_query_params s)
    else s in
  let s := render (button (lit "Lost in a city")) s in
  let s :=
    if lost then
      set_state (lit "__autofill")
        (lit "I wandered through an endless city with unfamiliar streets and shops that changed each time I looked away.")
        s
    else s in
  let s := render (button (lit "Unexpected exam")) s in
  let s :=
    if exam then
      set_state (lit "__autofill")
        (lit "I arrived at an exam hall and realized I didn't study the subject at all. Everyone was watching me.")
        s
    else s in
  if bool_decide (lit " __autofill" ∈ dom (session_state s))
     || bool_decide (lit "__autofill" ∈ dom (session_state s))
  then
    let key :=
      if bool_decide (lit "__autofill" ∈ dom (session_state s))
      then lit "__autofill" else lit " __autofill" in
    (Rerun, s)
  else
    (Finished,
     render (caption (lit "Requirements: streamlit, openai (official), python-dotenv (optional). See the canvas code for full details.")) s).

End Script.

(** ** Vocabulary of the statements *)

Import PyStr Hashlib App.

(** The reply with each lowercase marker ["story:"] and ["moral:"] written
    in capitals; [k] counts the characters of a marker still to rewrite. *)
Fixpoint capitalise_markers (k : nat) (s : str) : str :=
  match s with
  | [] => []
  | c :: s' =>
      let k :=
        if startswith (lit "story:") s || startswith (lit "moral:") s
        then 6%nat else k in
      match k with
      | O => c :: capitalise_markers 0 s'
      | S k' => upper [c] ++ capitalise_markers k' s'
      end
  end.

(** A lowercase hexadecimal digit, [0-9a-f]. *)
Definition is_hex (c : N) : bool :=
  ((48 <=? c) && (c <=? 57) || (97 <=? c) && (c <=? 102))%N.

(** The path the submit branch writes for a dream whose UTF-8 form is
    [b]. *)
Definition saved_name (b : bytes) : str :=
  lit "stories/dream_" ++ slice (hexdigest (sha1 b)) 0 8 ++ lit ".txt".

(** A submission was persisted when its last widget is the [st.info] that
    reports the path. *)
Definition persisted (w' : World) (fname : str) : Prop :=
  last (widgets w') = Some (info (lit "Saved locally: " ++ fname)).

(** Two worlds with the same page and the same file system. *)
Definition same_page_and_disk (w w' : World) : Prop :=
  widgets w' = widgets w /\ dirs w' = dirs w /\ files w' = files w
  /\ read_only w' = read_only w.

(** A service that always sends the same two-section reply, and a world
    with an empty page and an empty, writable working directory. *)
Definition fox_client : Client :=
  {| create := fun _ _ => inr [Some (lit "STORY: A fox ran. MORAL: Be brave.")] |}.

Definition fresh_world : World :=
  {| calls := []; widgets := []; dirs := ∅; files := ∅; read_only := false |}.

(** The words of the fallback rule.  A line is blank when it holds nothing
    but whitespace. *)
Definition blank (ln : str) : bool := forallb isspace ln.

(** A text is trimmed when it is not empty and neither its first nor its
    last character is whitespace. *)
Definition trimmed (l : str) : bool :=
  match l with
  | [] => false
  | c :: _ => negb (isspace c) && negb (isspace (List.last l c))
  end.

(** [l] is the line [raw] without the whitespace around it. *)
Definition is_trim_of (l raw : str) : Prop :=
  trimmed l = true
  /\ exists pre post,
       raw = pre ++ l ++ post
       /\ forallb isspace pre = true /\ forallb isspace post = true.

(** The two requests of the program. *)
Definition mood_request (dream_text : str) : Request :=
  {| model := lit "gpt-4o-mini";
     messages :=
       [(lit "system",
         lit "You are a short-text mood classifier for dreams. "
         ++ lit "Given a user dream text, reply with one short mood label only. "
         ++ lit "Choose from: Scary, Happy, Peaceful, Anxious, Confusing, Exciting, Sad, Surreal, Neutral.");
        (lit "user", dream_text)];
     temperature := 0;
     max_tokens := 30 |}.

Definition story_request (dream_text genre length : str) : Request :=
  {| model := lit "gpt-4o-mini";
     messages :=
       [(lit "system",
         lit "You are a creative writer who converts people's dreams into short fictional stories. "
         ++ lit "Respond in two labeled sections: STORY: <story text> and MORAL: <one-sentence moral>. "
         ++ lit "Keep language simple and vivid. Respect the chosen genre and requested length.");
        (lit "user", prompt dream_text genre length)];
     temperature := 0.7;
     max_tokens := 550 |}.

(** What a submission shows between the spinner and the outcome of the
    save. *)
Definition results (dream_input mood story moral : str) : list Widget :=
  [subheader ([128270%N] ++ lit " Dream Mood"); write mood;
   subheader ([128214%N] ++ lit " Story"); write story;
   subheader ([128161%N] ++ lit " Moral");
   write (if truthy moral then moral else lit "(No explicit moral generated.)");
   download_button (lit "Download story as .txt")
     (full_text dream_input mood story moral) (lit "dream_story.txt")].

(** The outcome of the save: the path, or the warning. *)
Definition save_outcome (exn_str : exn -> str) (x : Widget) : Prop :=
  (exists fname, x = info (lit "Saved locally: " ++ fname))
  \/ (exists e, x = warning (lit "Could not save locally: " ++ exn_str e)).

(** Services that fail: at once, and from the second request on. *)
Definition failing_client : Client :=
  {| create := fun _ _ => inl (APIError (lit "rate limit")) |}.

Definition flaky_client : Client :=
  {| create := fun n _ =>
       match n with
       | O => inr [Some (lit "Happy")]
       | S _ => inl (APIError (lit "rate limit"))
       end |}.

Definition read_only_world : World :=
  {| calls := []; widgets := []; dirs := ∅; files := ∅; read_only := true |}.

(** Successive runs of the footer: session state and query parameters are
    carried over, the page is rendered afresh. *)
Fixpoint replay (clicks : list (bool * bool * bool)) (s : Script.Session)
  : list Script.Control :=
  match clicks with
  | [] => []
  | (flying, lost, exam) :: rest =>
      let r := Script.footer flying lost exam s in
      fst r :: replay rest
                 {| Script.session_state := Script.session_state (snd r);
                    Script.query_params := Script.query_params (snd r);
                    Script.page := [] |}
  end.

(** ** Facts about the string operations *)

Lemma upper_app (a b : str) : upper (a ++ b) = upper a ++ upper b.
Proof. unfold upper. apply flat_map_app. Qed.

Lemma len_app (a b : str) : len (a ++ b) = (len a + len b)%Z.
Proof. unfold len. rewrite length_app. lia. Qed.

Lemma len_nonneg (a : str) : (0 <= len a)%Z.
Proof. unfold len. lia. Qed.

(** A search that finds nothing answers [-1], whatever the offset. *)
Lemma find_from_absent (sub s : str) (i : Z) :
  contains sub s = false -> find_from sub s i = (-1)%Z.
Proof.
  revert i. induction s as [|c s IH]; intros i H; simpl in *.
  - destruct (startswith sub []); [discriminate | reflexivity].
  - destruct (startswith sub (c :: s)); [discriminate |].
    apply IH. exact H.
Qed.

Lemma find_from_present (sub s : str) (i : Z) :
  contains sub s = true -> (i <= find_from sub s i)%Z.
Proof.
  revert i. induction s as [|c s IH]; intros i H; simpl in *.
  - destruct (startswith sub []); [lia | discriminate].
  - destruct (startswith sub (c :: s)); [lia |].
    specialize (IH (i + 1)%Z H). lia.
Qed.

(** [sub in s] is [s.find(sub) >= 0]. *)
Lemma contains_iff_find (sub s : str) :
  contains sub s = true <-> (0 <= find sub s)%Z.
Proof.
  unfold find. split.
  - apply find_from_present.
  - intros H. destruct (contains sub s) eqn:E; [reflexivity |].
    rewrite (find_from_absent _ _ _ E) in H. lia.
Qed.

Lemma clamp_index_inside (n i : Z) :
  (0 <= i <= n)%Z -> clamp_index n i = i.
Proof. intros H. unfold clamp_index. destruct (Z.ltb_spec i 0); lia. Qed.

(** Slicing a concatenation at the seams gives the middle part back. *)
Lemma slice_app_mid (a b c : str) :
  slice (a ++ b ++ c) (len a) (len a + len b) = b.
Proof.
  unfold slice, len. rewrite !length_app.
  rewrite !clamp_index_inside by lia.
  replace (Z.to_nat (Z.of_nat (length a))) with (length a) by lia.
  rewrite drop_app_length.
  replace (Z.to_nat _) with (length b) by lia.
  apply take_app_length.
Qed.

Lemma slice_from_app (a b : str) : slice_from (a ++ b) (len a) = b.
Proof.
  unfold slice_from, len. rewrite length_app.
  rewrite clamp_index_inside by lia.
  replace (Z.to_nat (Z.of_nat (length a))) with (length a) by lia.
  apply drop_app_length.
Qed.

(** A slice whose end is not after its start is empty. *)
Lemma slice_empty (s : str) (start stop : Z) :
  (0 <= stop <= start)%Z -> slice s start stop = [].
Proof.
  intros H. unfold slice, clamp_index.
  destruct (Z.ltb_spec start 0), (Z.ltb_spec stop 0); try lia.
  replace (Z.to_nat _) with 0%nat by lia. reflexivity.
Qed.

(** Text without a line boundary is at most one line. *)
Lemma splitlines_from_one_line (cur s : str) :
  Forall (fun c => is_linebreak c = false) s ->
  splitlines_from cur s = match cur ++ s with [] => [] | _ => [cur ++ s] end.
Proof.
  revert cur. induction s as [|c s IH]; intros cur H; simpl.
  - rewrite app_nil_r. reflexivity.
  - inversion H as [|? ? Hc Hs]; subst. rewrite Hc.
    rewrite (IH _ Hs), <- app_assoc. reflexivity.
Qed.

Lemma splitlines_one_line (s : str) :
  Forall (fun c => is_linebreak c = false) s ->
  (length (splitlines s) <= 1)%nat.
Proof.
  intros H. unfold splitlines. rewrite (splitlines_from_one_line _ _ H).
  simpl. destruct s; simpl; lia.
Qed.

Lemma length_filter_le {A} (p : A -> bool) (l : list A) :
  (length (List.filter p l) <= length l)%nat.
Proof.
  induction l as [|x l IH]; simpl; [lia |].
  destruct (p x); simpl; lia.
Qed.

(** The marker branch, when the scan finds the markers at the seams of
    [pre ++ m1 ++ mid ++ m2 ++ post]. *)
Lemma story_and_moral_at (pre m1 mid m2 post : str) :
  length m1 = 6%nat -> length m2 = 6%nat ->
  find (lit "STORY:") (upper (pre ++ m1 ++ mid ++ m2 ++ post)) = len pre ->
  find (lit "MORAL:") (upper (pre ++ m1 ++ mid ++ m2 ++ post))
    = (len pre + 6 + len mid)%Z ->
  story_and_moral (pre ++ m1 ++ mid ++ m2 ++ post) = (strip mid, strip post).
Proof.
  intros L1 L2 Hs Hm. unfold story_and_moral.
  assert (Cs : contains (lit "STORY:")
                 (upper (pre ++ m1 ++ mid ++ m2 ++ post)) = true).
  { apply contains_iff_find. rewrite Hs. apply len_nonneg. }
  assert (Cm : contains (lit "MORAL:")
                 (upper (pre ++ m1 ++ mid ++ m2 ++ post)) = true).
  { apply contains_iff_find. rewrite Hm.
    pose proof (len_nonneg pre). pose proof (len_nonneg mid). lia. }
  rewrite Cs, Cm, Hs, Hm. simpl andb. cbv iota.
  assert (E1 : len m1 = 6%Z) by (unfold len; lia).
  assert (E2 : len m2 = 6%Z) by (unfold len; lia).
  change (len (lit "STORY:")) with 6%Z.
  change (len (lit "MORAL:")) with 6%Z.
  f_equal; f_equal.
  - replace (pre ++ m1 ++ mid ++ m2 ++ post)
      with ((pre ++ m1) ++ mid ++ (m2 ++ post))
      by (rewrite <- !app_assoc; reflexivity).
    replace (len pre + 6)%Z with (len (pre ++ m1)) by (rewrite len_app; lia).
    replace (len pre + 6 + len mid)%Z with (len (pre ++ m1) + len mid)%Z
      by (rewrite len_app; lia).
    apply slice_app_mid.
  - replace (pre ++ m1 ++ mid ++ m2 ++ post)
      with ((pre ++ m1 ++ mid ++ m2) ++ post)
      by (rewrite <- !app_assoc; reflexivity).
    replace (len pre + 6 + len mid + 6)%Z with (len (pre ++ m1 ++ mid ++ m2))
      by (rewrite !len_app; lia).
    apply slice_from_app.
Qed.

(** When the scan finds ["MORAL:"] before ["STORY:"], the story slice is
    empty. *)
Lemma story_empty_when_moral_first (text : str) :
  contains (lit "STORY:") (upper text) = true ->
  contains (lit "MORAL:") (upper text) = true ->
  (find (lit "MORAL:") (upper text) < find (lit "STORY:") (upper text))%Z ->
  fst (story_and_moral text) = [].
Proof.
  intros Cs Cm Hlt. unfold story_and_moral. rewrite Cs, Cm. simpl.
  rewrite slice_empty; [reflexivity |].
  apply contains_iff_find in Cm. change (len (lit "STORY:")) with 6%Z. lia.
Qed.

(** ** The reply parser *)

(** C1 (the code departs from the claim).  For a reply with both markers the
    story should be the text strictly between ["STORY:"] and ["MORAL:"],
    trimmed.  The offsets are found in the uppercased reply and used in the
    reply itself, and uppercasing the German sharp s (U+00DF) gives two
    letters: on ["STORY: Die Straße war leer. MORAL: Sei mutig."] the story
    returned is the text between the markers followed by [" M"], the start
    of the second marker.  The reply of the claim itself parses as
    claimed. *)
Theorem story_runs_into_marker_after_sharp_s :
  let mid := lit " Die Stra" ++ [223%N] ++ lit "e war leer. " in
  let post := lit " Sei mutig." in
  story_and_moral (lit "STORY:" ++ mid ++ lit "MORAL:" ++ post)
    = (strip mid ++ lit " M", strip post)
  /\ strip mid ++ lit " M" <> strip mid
  /\ story_and_moral (lit "STORY: A fox ran. MORAL: Be brave.")
     = (lit "A fox ran.", lit "Be brave.").
Proof.
  cbv zeta. split; [vm_compute; reflexivity |].
  split; [vm_compute; discriminate | vm_compute; reflexivity].
Qed.

(** C10 (the code departs from the claim).  With ["MORAL:"] first the story
    is empty and the moral should be everything after that marker, trimmed.
    On ["Süße Straße. MORAL: Sei mutig. STORY: Ende"] two sharp s before
    the marker move the offset by two and the moral returned has lost its
    first letter. *)
Theorem moral_loses_letter_after_sharp_s :
  let pre := [83; 252; 223; 101; 32; 83; 116; 114; 97; 223; 101; 46; 32]%N in
  let rest := lit " Sei mutig. STORY: Ende" in
  story_and_moral (pre ++ lit "MORAL:" ++ rest)
    = ([], lit "ei mutig. STORY: Ende")
  /\ strip rest = lit "Sei mutig. STORY: Ende".
Proof. cbv zeta. split; vm_compute; reflexivity. Qed.

(** C4.  When the uppercase scan misses at least one marker and the reply
    has fewer than two non-empty stripped lines, as every reply without a
    line boundary has, the story is the whole reply and the moral is
    empty. *)
Theorem fallback_keeps_short_reply_whole (text : str) :
  contains (lit "STORY:") (upper text) = false
  \/ contains (lit "MORAL:") (upper text) = false ->
  (length (lines text) < 2)%nat
  \/ Forall (fun c => is_linebreak c = false) text ->
  story_and_moral text = (text, []).
Proof.
  intros Habsent Hfew. unfold story_and_moral.
  replace (contains (lit "STORY:") (upper text)
           && contains (lit "MORAL:") (upper text)) with false
    by (destruct Habsent as [-> | ->]; [| rewrite andb_false_r]; reflexivity).
  cbv zeta.
  assert (Hlt : (length (lines text) < 2)%nat).
  { destruct Hfew as [H | H]; [exact H |].
    unfold lines. rewrite length_map.
    pose proof (length_filter_le (fun ln => truthy (strip ln)) (splitlines text)).
    pose proof (splitlines_one_line text H). lia. }
  destruct (Nat.leb_spec 2 (length (lines text))); [lia | reflexivity].
Qed.

(** A one-line reply and the empty reply. *)
Lemma fallback_single_line :
  story_and_moral (lit "A fox ran.") = (lit "A fox ran.", [])
  /\ story_and_moral [] = ([], []).
Proof.
  split.
  - apply (fallback_keeps_short_reply_whole (lit "A fox ran.")).
    + left. vm_compute. reflexivity.
    + right. repeat constructor.
  - apply (fallback_keeps_short_reply_whole []).
    + left. vm_compute. reflexivity.
    + left. vm_compute. lia.
Defined.

(** C5, as stated, fails: in ["moral: a story: b"] the scan finds
    ["MORAL:"] first, so the moral is the rest of the reply with its
    ["story:"] label as written, in lowercase here and in capitals in the
    reply with capital markers. *)
Lemma lowercase_marker_kept_in_moral :
  capitalise_markers 0 (lit "moral: a story: b") = lit "MORAL: a STORY: b"
  /\ story_and_moral (lit "moral: a story: b") = ([], lit "a story: b")
  /\ story_and_moral (capitalise_markers 0 (lit "moral: a story: b"))
     = ([], lit "a STORY: b")
  /\ story_and_moral (lit "moral: a story: b")
     <> story_and_moral (capitalise_markers 0 (lit "moral: a story: b")).
Proof.
  split; [vm_compute; reflexivity |].
  split; [vm_compute; reflexivity |].
  split; [vm_compute; reflexivity |].
  vm_compute. discriminate.
Qed.

(** C5, amended.  Take a reply [pre ++ "story:" ++ mid ++ "moral:" ++ post]
    in which the uppercase scan first finds ["STORY:"] at offset [len pre]
    and ["MORAL:"] at offset [len pre + 6 + len mid], the places of its two
    markers.  It parses to the same pair as the reply with the two markers
    in capitals: [mid] stripped and [post] stripped. *)
Theorem marker_case_does_not_matter (pre mid post : str) :
  find (lit "STORY:")
    (upper (pre ++ lit "STORY:" ++ mid ++ lit "MORAL:" ++ post)) = len pre ->
  find (lit "MORAL:")
    (upper (pre ++ lit "STORY:" ++ mid ++ lit "MORAL:" ++ post))
    = (len pre + 6 + len mid)%Z ->
  story_and_moral (pre ++ lit "story:" ++ mid ++ lit "moral:" ++ post)
    = story_and_moral (pre ++ lit "STORY:" ++ mid ++ lit "MORAL:" ++ post)
  /\ story_and_moral (pre ++ lit "story:" ++ mid ++ lit "moral:" ++ post)
     = (strip mid, strip post).
Proof.
  intros Hs Hm.
  assert (Hup : upper (pre ++ lit "story:" ++ mid ++ lit "moral:" ++ post)
                = upper (pre ++ lit "STORY:" ++ mid ++ lit "MORAL:" ++ post)).
  { rewrite !upper_app. reflexivity. }
  assert (Hlo : story_and_moral
                  (pre ++ lit "story:" ++ mid ++ lit "moral:" ++ post)
                = (strip mid, strip post)).
  { apply story_and_moral_at; try reflexivity; rewrite Hup; assumption. }
  split; [| exact Hlo].
  rewrite Hlo. symmetry.
  apply story_and_moral_at; try reflexivity; assumption.
Qed.

(** The lowercase form of the reply of C1. *)
Lemma marker_case_fox :
  story_and_moral (lit "story: A fox ran. moral: Be brave.")
    = story_and_moral (lit "STORY: A fox ran. MORAL: Be brave.")
  /\ story_and_moral (lit "story: A fox ran. moral: Be brave.")
     = (lit "A fox ran.", lit "Be brave.").
Proof.
  apply (marker_case_does_not_matter [] (lit " A fox ran. ") (lit " Be brave."));
    vm_compute; reflexivity.
Defined.

(** ** The length hint *)

Lemma length_hint_fallback (length : str) :
  length <> lit "Short" -> length <> lit "Medium" -> length <> lit "Long" ->
  length_hint length = lit "Keep it short.".
Proof.
  intros H1 H2 H3. unfold length_hint, length_hints.
  rewrite !lookup_insert_ne by congruence.
  rewrite lookup_empty. reflexivity.
Qed.

(** C2, as stated, fails: the hint for an unknown tier such as ["Tiny"] is
    not the hint of ["Short"]. *)
Lemma unknown_tier_hint_is_not_short_hint :
  lit "Tiny" <> lit "Short" /\ lit "Tiny" <> lit "Medium"
  /\ lit "Tiny" <> lit "Long"
  /\ length_hint (lit "Tiny") = lit "Keep it short."
  /\ length_hint (lit "Short") = lit "Keep it very short (3-5 sentences)."
  /\ length_hint (lit "Tiny") <> length_hint (lit "Short").
Proof.
  repeat split; try (vm_compute; reflexivity); vm_compute; discriminate.
Qed.

(** C2, amended.  For a length outside ["Short"], ["Medium"], ["Long"] the
    dictionary lookup falls back, without error, to the phrase
    ["Keep it short."] of its own, which is not the phrase of the Short
    tier; the prompt carries it, and with a client the one request sent has
    this prompt as its user message. *)
Theorem unknown_tier_uses_fallback_hint (dream_text genre length : str) :
  length <> lit "Short" -> length <> lit "Medium" -> length <> lit "Long" ->
  length_hint length = lit "Keep it short."
  /\ length_hint length <> length_hint (lit "Short")
  /\ prompt dream_text genre length
     = lit "User dream: " ++ dream_text ++ [10%N]
       ++ lit "Genre: " ++ genre ++ [10%N]
       ++ lit "Length hint: Keep it short." ++ [10%N]
       ++ lit "Write a short creative story inspired by the dream. Then write a one-sentence moral."
  /\ forall (cl : Client) (w : World),
       exists r,
         calls (snd (generate_story_and_moral (Some cl) dream_text genre length w))
           = calls w ++ [r]
         /\ List.last (messages r) ([], [])
            = (lit "user", prompt dream_text genre length).
Proof.
  intros H1 H2 H3.
  pose proof (length_hint_fallback length H1 H2 H3) as Hh.
  split; [exact Hh |].
  split; [rewrite Hh; vm_compute; discriminate |].
  split.
  - unfold prompt. rewrite Hh.
    change (lit "Length hint: Keep it short.")
      with (lit "Length hint: " ++ lit "Keep it short.").
    rewrite <- !app_assoc. reflexivity.
  - intros cl w. eexists. unfold generate_story_and_moral, bind.
    unfold chat_completions_create.
    destruct (create cl _ _) as [e | resp].
    + simpl. split; reflexivity.
    + destruct resp as [|[c|] resp]; simpl; split; reflexivity.
Qed.

(** The tier ["Tiny"]. *)
Lemma unknown_tier_tiny :
  length_hint (lit "Tiny") = lit "Keep it short."
  /\ length_hint (lit "Tiny") <> length_hint (lit "Short").
Proof.
  pose proof (unknown_tier_uses_fallback_hint [] [] (lit "Tiny")) as H.
  destruct H as (H1 & H2 & _); try (vm_compute; discriminate).
  split; assumption.
Defined.

(** ** Without a client *)

(** C6.  With no client, [generate_story_and_moral] returns
    [("(API key missing)", "")] for every dream text, genre and length,
    and leaves the world as it was: no request is sent. *)
Theorem generate_without_client (dream_text genre length : str) (w : World) :
  generate_story_and_moral None dream_text genre length w
    = (Ok (lit "(API key missing)", []), w)
  /\ calls (snd (generate_story_and_moral None dream_text genre length w))
     = calls w.
Proof. split; reflexivity. Qed.

(** C7.  With no client, [analyze_mood] returns the fixed label
    ["Unknown (no API key)"] for every dream text and leaves the world as
    it was: no request is sent. *)
Theorem analyze_without_client (dream_text : str) (w : World) :
  analyze_mood None dream_text w = (Ok (lit "Unknown (no API key)"), w)
  /\ calls (snd (analyze_mood None dream_text w)) = calls w.
Proof. split; reflexivity. Qed.

(** ** The submit branch *)

(** C8.  A dream text that is empty after stripping is answered by the
    warning alone: the branch is that one [st.warning], neither
    [analyze_mood] nor [generate_story_and_moral] runs, no request is sent
    and the file system is unchanged. *)
Theorem blank_dream_only_warns
    (client : option Client) (exn_str : exn -> str)
    (dream_input genre length : str) :
  strip dream_input = [] ->
  submit_handler client exn_str dream_input genre length
    = st (warning (lit "Please enter a dream description before clicking Create Story."))
  /\ forall w,
       let w' := snd (submit_handler client exn_str dream_input genre length w) in
       calls w' = calls w /\ files w' = files w /\ dirs w' = dirs w
       /\ widgets w'
          = widgets w ++ [warning (lit "Please enter a dream description before clicking Create Story.")].
Proof.
  intros Hblank. unfold submit_handler. rewrite Hblank. simpl.
  split; [reflexivity |]. intros w. repeat split; reflexivity.
Qed.

(** A dream of spaces, a tab and a newline, with a client at hand. *)
Lemma blank_dream_spaces :
  strip [32; 32; 9; 10]%N = []
  /\ calls (snd (submit_handler (Some fox_client) (fun _ => [])
                   [32; 32; 9; 10]%N (lit "Fantasy") (lit "Medium") fresh_world))
     = []
  /\ files (snd (submit_handler (Some fox_client) (fun _ => [])
                   [32; 32; 9; 10]%N (lit "Fantasy") (lit "Medium") fresh_world))
     = ∅.
Proof.
  assert (H : strip [32; 32; 9; 10]%N = []) by (vm_compute; reflexivity).
  split; [exact H |].
  destruct (blank_dream_only_warns (Some fox_client) (fun _ => [])
              [32; 32; 9; 10]%N (lit "Fantasy") (lit "Medium") H) as [_ Hw].
  destruct (Hw fresh_world) as (Hc & Hf & _).
  split; [exact Hc | exact Hf].
Defined.

(** *** The hash in the file name *)

Lemma hex_digit_is_hex (n : N) : (n < 16)%N -> is_hex (hex_digit n) = true.
Proof.
  intros H. unfold is_hex, hex_digit. apply orb_true_iff.
  destruct (N.ltb_spec n 10); [left | right];
    apply andb_true_iff; split; apply N.leb_le; lia.
Qed.

Lemma hex_word_length (x : N) : length (hex_word x) = 8%nat.
Proof. reflexivity. Qed.

Lemma hex_word_is_hex (x : N) : forallb is_hex (hex_word x) = true.
Proof.
  unfold hex_word. apply forallb_forall. intros c Hc.
  apply in_map_iff in Hc. destruct Hc as (i & <- & _).
  apply hex_digit_is_hex. change 15%N with (N.ones 4).
  rewrite N.land_ones. apply N.mod_lt. discriminate.
Qed.

(** The first eight digits of the digest are those of its first word. *)
Lemma hash_prefix (b : bytes) :
  exists h0, slice (hexdigest (sha1 b)) 0 8 = hex_word h0.
Proof.
  destruct (sha1 b) as [[[[h0 h1] h2] h3] h4]. exists h0.
  unfold hexdigest.
  apply (slice_app_mid [] (hex_word h0)
           (hex_word h1 ++ hex_word h2 ++ hex_word h3 ++ hex_word h4)).
Qed.

Lemma hash_is_eight_hex_digits (b : bytes) :
  length (slice (hexdigest (sha1 b)) 0 8) = 8%nat
  /\ forallb is_hex (slice (hexdigest (sha1 b)) 0 8) = true.
Proof.
  destruct (hash_prefix b) as [h0 ->].
  split; [apply hex_word_length | apply hex_word_is_hex].
Qed.

(** *** The service calls leave page and disk alone *)

Lemma same_page_and_disk_refl (w : World) : same_page_and_disk w w.
Proof. repeat split. Qed.

Lemma chat_same_page_and_disk (cl : Client) (r : Request) (w : World) :
  same_page_and_disk w (snd (chat_completions_create cl r w)).
Proof.
  unfold chat_completions_create.
  destruct (create cl _ r); repeat split.
Qed.

Lemma analyze_mood_same_page_and_disk
    (client : option Client) (dream_text : str) (w : World) :
  same_page_and_disk w (snd (analyze_mood client dream_text w)).
Proof.
  unfold analyze_mood. destruct client as [cl |]; [| apply same_page_and_disk_refl].
  unfold bind, chat_completions_create.
  destruct (create cl _ _) as [e | [|[c|] resp]]; repeat split.
Qed.

Lemma generate_same_page_and_disk
    (client : option Client) (dream_text genre length : str) (w : World) :
  same_page_and_disk w
    (snd (generate_story_and_moral client dream_text genre length w)).
Proof.
  unfold generate_story_and_moral.
  destruct client as [cl |]; [| apply same_page_and_disk_refl].
  unfold bind, chat_completions_create.
  destruct (create cl _ _) as [e | [|[c|] resp]]; repeat split.
Qed.

(** *** Reading a persisted submission backwards *)

Lemma bind_run {A B} (c : M A) (k : A -> M B) (w : World) :
  bind c k w = match c w with
               | (Ok a, w') => k a w'
               | (Raise e, w') => (Raise e, w')
               end.
Proof. reflexivity. Qed.

Lemma bind_st {B} (x : Widget) (k : unit -> M B) (w : World) :
  bind (st x) k w = k tt (show x w).
Proof. reflexivity. Qed.

Lemma last_shown (x : Widget) (w : World) : last (widgets (show x w)) = Some x.
Proof. simpl. apply last_snoc. Qed.

(** The [try] body either writes the file and then shows its path, or
    raises with the page as it was. *)
Lemma save_locally_cases (dream_input text : str) (w : World) :
  (exists b data w',
     encode dream_input = Some b /\ encode text = Some data
     /\ save_locally dream_input text w = (Ok tt, w')
     /\ widgets w' = widgets w ++ [info (lit "Saved locally: " ++ saved_name b)]
     /\ files w' = <[saved_name b := data]> (files w))
  \/ (exists e w', save_locally dream_input text w = (Raise e, w')
                   /\ widgets w' = widgets w).
Proof.
  unfold save_locally, bind, os_makedirs, str_encode, open_w, f_write, st,
    raise, ret.
  destruct (encode dream_input) as [b |] eqn:Eb;
    destruct (encode text) as [data |] eqn:Ed;
    destruct (read_only w) eqn:Hro;
    repeat match goal with
           | |- context [decide ?P] => destruct (decide P)
           end;
    cbn [dirs add_dir read_only]; try rewrite Hro;
    repeat match goal with
           | |- context [decide ?P] => destruct (decide P)
           end;
    first [ right; do 2 eexists; split; reflexivity
          | left; exists b, data; eexists;
            split; [reflexivity |]; split; [reflexivity |];
            split; [reflexivity |]; split; [reflexivity |];
            cbn [files show put_file add_dir]; apply insert_insert_eq ].
Qed.

(** A persisted submission went through every step: both calls returned,
    both texts were encoded, and the file written is the one named by the
    hash of the dream text. *)
Lemma persisted_inv
    (client : option Client) (exn_str : exn -> str)
    (dream_input genre length : str) (w w' : World) (r : Result unit)
    (fname : str) :
  submit_handler client exn_str dream_input genre length w = (r, w') ->
  persisted w' fname ->
  exists b mood story moral data,
    encode dream_input = Some b /\ fname = saved_name b
    /\ fst (analyze_mood client dream_input
              (show (spinner (lit "Analyzing dream and writing story...")) w))
       = Ok mood
    /\ fst (generate_story_and_moral client dream_input genre length
              (snd (analyze_mood client dream_input
                      (show (spinner (lit "Analyzing dream and writing story...")) w))))
       = Ok (story, moral)
    /\ encode (full_text dream_input mood story moral) = Some data
    /\ files w' = <[fname := data]> (files w)
    /\ r = Ok tt.
Proof.
  unfold submit_handler, persisted.
  destruct (truthy (strip dream_input)); cbn [negb];
    [| intros E P; inversion E; subst; rewrite last_shown in P; discriminate].
  rewrite bind_st, bind_run.
  pose proof (analyze_mood_same_page_and_disk client dream_input
                (show (spinner (lit "Analyzing dream and writing story...")) w))
    as (Pa & _ & Fa & _).
  destruct (analyze_mood client dream_input _) as [[mood | ex] wa];
    cbn [snd fst] in *;
    [| intros E P; inversion E; subst; rewrite Pa, last_shown in P;
       discriminate].
  rewrite bind_run.
  pose proof (generate_same_page_and_disk client dream_input genre length wa)
    as (Pg & _ & Fg & _).
  destruct (generate_story_and_moral client dream_input genre length wa)
    as [[[story moral] | ex] wb]; cbn [snd fst] in *;
    [| intros E P; inversion E; subst; rewrite Pg, Pa, last_shown in P;
       discriminate].
  rewrite !bind_st. unfold try_except.
  match goal with
  | |- context [save_locally ?d ?t ?W] =>
      destruct (save_locally_cases d t W)
        as [(b & data & w'' & Eb & Ed & Es & Hw & Hf) | (e & w'' & Es & Hw)];
      rewrite Es
  end.
  - intros E P. inversion E; subst.
    rewrite Hw, last_snoc in P. injection P as P.
    subst fname.
    exists b, mood, story, moral, data.
    repeat split; try assumption; try reflexivity.
    rewrite Hf. cbn [files show]. rewrite Fg, Fa. reflexivity.
  - intros E P. inversion E; subst. rewrite last_shown in P. discriminate.
Qed.

(** C9.  A persisted submission wrote [stories/dream_<h>.txt], where [h] is
    the first eight hexadecimal digits of the SHA-1 of the UTF-8 form of
    the dream text and of nothing else, and the file holds the text of that
    submission.  Hence a second persisted submission of the same dream
    text, whatever its genre, length and replies, reports the same path and
    leaves there its own text in place of the first. *)
Theorem saved_file_is_named_by_dream_hash :
  (forall (client : option Client) (exn_str : exn -> str)
          (dream_input genre length : str) (w w' : World) (r : Result unit)
          (fname : str),
     submit_handler client exn_str dream_input genre length w = (r, w') ->
     persisted w' fname ->
     exists b h data,
       encode dream_input = Some b
       /\ h = slice (hexdigest (sha1 b)) 0 8
       /\ List.length h = 8%nat /\ forallb is_hex h = true
       /\ fname = lit "stories/dream_" ++ h ++ lit ".txt"
       /\ files w' !! fname = Some data)
  /\ (forall (client : option Client) (exn_str : exn -> str)
             (dream_input genre1 length1 genre2 length2 : str)
             (w0 w1 w2 : World) (r1 r2 : Result unit) (fname1 fname2 : str),
        submit_handler client exn_str dream_input genre1 length1 w0 = (r1, w1) ->
        persisted w1 fname1 ->
        submit_handler client exn_str dream_input genre2 length2 w1 = (r2, w2) ->
        persisted w2 fname2 ->
        fname1 = fname2
        /\ exists mood story moral data,
             fst (analyze_mood client dream_input
                    (show (spinner (lit "Analyzing dream and writing story...")) w1))
             = Ok mood
             /\ fst (generate_story_and_moral client dream_input genre2 length2
                       (snd (analyze_mood client dream_input
                               (show (spinner (lit "Analyzing dream and writing story...")) w1))))
                = Ok (story, moral)
             /\ encode (full_text dream_input mood story moral) = Some data
             /\ files w2 !! fname1 = Some data
             /\ files w2 = <[fname1 := data]> (files w0)).
Proof.
  split.
  - intros client exn_str dream_input genre length w w' r fname E P.
    destruct (persisted_inv _ _ _ _ _ _ _ _ _ E P)
      as (b & mood & story & moral & data & Eb & Hn & _ & _ & _ & Hf & _).
    exists b, (slice (hexdigest (sha1 b)) 0 8), data.
    destruct (hash_is_eight_hex_digits b) as [Hl Hx].
    repeat split; try assumption.
    rewrite Hf. apply lookup_insert_eq.
  - intros client exn_str dream_input genre1 length1 genre2 length2
      w0 w1 w2 r1 r2 fname1 fname2 E1 P1 E2 P2.
    destruct (persisted_inv _ _ _ _ _ _ _ _ _ E1 P1)
      as (b1 & _ & _ & _ & data1 & Eb1 & Hn1 & _ & _ & _ & Hf1 & _).
    destruct (persisted_inv _ _ _ _ _ _ _ _ _ E2 P2)
      as (b2 & mood & story & moral & data2 & Eb2 & Hn2 & Ha & Hg & Ed & Hf2 & _).
    assert (b2 = b1) by congruence. subst b2 fname1 fname2.
    split; [reflexivity |].
    exists mood, story, moral, data2.
    repeat split; try assumption.
    + rewrite Hf2. apply lookup_insert_eq.
    + rewrite Hf2, Hf1. apply insert_insert_eq.
Qed.


(** Two submissions of ["I was flying"], as Fantasy of medium length and
    then as Horror at full length. *)
Lemma saved_file_flying :
  exists (r1 r2 : Result unit) (w1 w2 : World) (data : bytes),
    submit_handler (Some fox_client) (fun _ => []) (lit "I was flying")
      (lit "Fantasy") (lit "Medium") fresh_world = (r1, w1)
    /\ persisted w1 (lit "stories/dream_8297d9aa.txt")
    /\ submit_handler (Some fox_client) (fun _ => []) (lit "I was flying")
         (lit "Horror") (lit "Long") w1 = (r2, w2)
    /\ persisted w2 (lit "stories/dream_8297d9aa.txt")
    /\ files w1 !! lit "stories/dream_8297d9aa.txt" <> None
    /\ files w2 !! lit "stories/dream_8297d9aa.txt" = Some data
    /\ files w2 = <[lit "stories/dream_8297d9aa.txt" := data]> (files fresh_world).
Proof.
  assert (P1 : persisted
                 (snd (submit_handler (Some fox_client) (fun _ => [])
                         (lit "I was flying") (lit "Fantasy") (lit "Medium")
                         fresh_world))
                 (lit "stories/dream_8297d9aa.txt"))
    by (vm_compute; reflexivity).
  assert (P2 : persisted
                 (snd (submit_handler (Some fox_client) (fun _ => [])
                         (lit "I was flying") (lit "Horror") (lit "Long")
                         (snd (submit_handler (Some fox_client) (fun _ => [])
                                 (lit "I was flying") (lit "Fantasy")
                                 (lit "Medium") fresh_world))))
                 (lit "stories/dream_8297d9aa.txt"))
    by (vm_compute; reflexivity).
  destruct (submit_handler (Some fox_client) (fun _ => [])
              (lit "I was flying") (lit "Fantasy") (lit "Medium") fresh_world)
    as [r1 w1] eqn:E1.
  cbn [snd] in P1, P2.
  destruct (submit_handler (Some fox_client) (fun _ => [])
              (lit "I was flying") (lit "Horror") (lit "Long") w1)
    as [r2 w2] eqn:E2.
  cbn [snd] in P2.
  destruct saved_file_is_named_by_dream_hash as [One Two].
  destruct (One _ _ _ _ _ _ _ _ _ E1 P1)
    as (b & h & data1 & _ & _ & _ & _ & _ & Hf1).
  destruct (Two _ _ _ _ _ _ _ _ _ _ _ _ _ _ E1 P1 E2 P2)
    as (_ & mood & story & moral & data & _ & _ & _ & Hl & Hf).
  exists r1, r2, w1, w2, data.
  repeat split; try assumption. rewrite Hf1. discriminate.
Defined.

(** ** More on the string operations *)

Lemma lstrip_length (s : str) : (length (lstrip s) <= length s)%nat.
Proof.
  induction s as [|c s IH]; simpl; [lia |].
  destruct (isspace c); simpl; lia.
Qed.

Lemma lstrip_idem (s : str) : lstrip (lstrip s) = lstrip s.
Proof.
  induction s as [|c s IH]; simpl; [reflexivity |].
  destruct (isspace c) eqn:E; [exact IH |]. simpl. rewrite E. reflexivity.
Qed.

(** What [lstrip] removes is a prefix. *)
Lemma lstrip_suffix (s : str) : exists p, s = p ++ lstrip s.
Proof.
  induction s as [|c s [p IH]]; simpl; [exists []; reflexivity |].
  destruct (isspace c); [| exists []; reflexivity].
  exists (c :: p). simpl. rewrite <- IH. reflexivity.
Qed.

(** A string that [lstrip] leaves alone starts with no whitespace. *)
Lemma lstrip_fixed_head (c : N) (s : str) :
  lstrip (c :: s) = c :: s -> isspace c = false.
Proof.
  simpl. destruct (isspace c); [| reflexivity].
  intros H. pose proof (lstrip_length s) as L. rewrite H in L. simpl in L. lia.
Qed.

Lemma lstrip_fixed_app (t x : str) :
  t <> [] -> lstrip t = t -> lstrip (t ++ x) = t ++ x.
Proof.
  destruct t as [|c t]; [congruence |]. intros _ H.
  apply lstrip_fixed_head in H. simpl. rewrite H. reflexivity.
Qed.

Lemma lstrip_fixed_prefix (t a b : str) :
  lstrip t = t -> t = a ++ b -> lstrip a = a.
Proof.
  intros H ->. destruct a as [|c a]; [reflexivity |].
  apply lstrip_fixed_head in H. simpl. rewrite H. reflexivity.
Qed.

(** [strip s = s] says that [s] neither starts nor ends with whitespace. *)
Lemma strip_fixed_iff (s : str) :
  strip s = s <-> lstrip s = s /\ lstrip (rev s) = rev s.
Proof.
  unfold strip, rstrip. split.
  - intros H.
    destruct (lstrip_suffix (rev (lstrip s))) as [p Hp].
    assert (Hs : lstrip s = s).
    { apply (lstrip_fixed_prefix (lstrip s) s (rev p)); [apply lstrip_idem |].
      rewrite <- H at 2. rewrite <- rev_app_distr, <- Hp, rev_involutive.
      reflexivity. }
    split; [exact Hs |].
    rewrite Hs in H. rewrite <- H at 1. rewrite rev_involutive, lstrip_idem.
    rewrite <- H at 2. rewrite rev_involutive. reflexivity.
  - intros [H1 H2]. rewrite H1, H2. apply rev_involutive.
Qed.

Lemma strip_idem (s : str) : strip (strip s) = strip s.
Proof.
  apply strip_fixed_iff. unfold strip, rstrip.
  destruct (lstrip_suffix (rev (lstrip s))) as [p Hp].
  split.
  - apply (lstrip_fixed_prefix (lstrip s) _ (rev p)); [apply lstrip_idem |].
    rewrite <- rev_app_distr, <- Hp, rev_involutive. reflexivity.
  - rewrite rev_involutive. apply lstrip_idem.
Qed.

Lemma Forall_lstrip (P : N -> Prop) (s : str) : Forall P s -> Forall P (lstrip s).
Proof.
  intros H. destruct (lstrip_suffix s) as [p Hp]. rewrite Hp in H.
  apply Forall_app in H. apply H.
Qed.

Lemma Forall_strip (P : N -> Prop) (s : str) : Forall P s -> Forall P (strip s).
Proof.
  intros H. unfold strip, rstrip.
  apply Forall_rev, Forall_lstrip, Forall_rev, Forall_lstrip, H.
Qed.

(** No line of [splitlines] holds a line boundary. *)
Lemma splitlines_from_no_break (n : nat) :
  forall (cur s : str), (length s <= n)%nat ->
    Forall (fun c => is_linebreak c = false) cur ->
    Forall (Forall (fun c => is_linebreak c = false)) (splitlines_from cur s).
Proof.
  induction n as [|n IH]; intros cur s Hn Hcur.
  - destruct s; [| simpl in Hn; lia]. simpl.
    destruct cur; repeat constructor; inversion Hcur; assumption.
  - destruct s as [|c s]; simpl.
    + destruct cur; repeat constructor; inversion Hcur; assumption.
    + simpl in Hn. destruct (is_linebreak c) eqn:E.
      * constructor; [exact Hcur |].
        destruct s as [|d s]; [constructor |].
        destruct ((c =? 13)%N && (d =? 10)%N);
          apply IH; try constructor; simpl in *; lia.
      * apply IH; [lia |]. apply Forall_app. split; [exact Hcur |].
        constructor; [exact E | constructor].
Qed.

Lemma splitlines_no_break (s line : str) :
  In line (splitlines s) -> Forall (fun c => is_linebreak c = false) line.
Proof.
  intros H.
  pose proof (splitlines_from_no_break (length s) [] s (le_n _) (List.Forall_nil _))
    as HF.
  rewrite List.Forall_forall in HF. apply HF, H.
Qed.

(** Every element of [lines] is non-empty, stripped, and one line. *)
Lemma lines_elements (text line : str) :
  In line (lines text) ->
  line <> [] /\ strip line = line
  /\ Forall (fun c => is_linebreak c = false) line.
Proof.
  unfold lines. intros H. apply in_map_iff in H.
  destruct H as (ln & <- & H). apply filter_In in H. destruct H as [Hin Ht].
  split; [destruct (strip ln); [discriminate | congruence] |].
  split; [apply strip_idem |].
  apply Forall_strip, (splitlines_no_break text), Hin.
Qed.

Lemma last_In {A} (l : list A) (d : A) : l <> [] -> In (List.last l d) l.
Proof.
  induction l as [|x l IH]; [congruence |]. intros _.
  destruct l as [|y l]; [left; reflexivity |].
  right. apply IH. discriminate.
Qed.

Lemma removelast_In {A} (l : list A) (x : A) : In x (removelast l) -> In x l.
Proof.
  induction l as [|y l IH]; simpl; [tauto |].
  destruct l as [|z l]; [simpl; tauto |].
  intros [-> | H]; [left; reflexivity | right; apply IH, H].
Qed.

(** A join of non-empty stripped parts is non-empty and stripped. *)
Lemma join_head (sep : str) (p : str) (parts : list str) :
  exists x, join sep (p :: parts) = p ++ x.
Proof.
  destruct parts as [|q parts]; simpl; [exists []; symmetry; apply app_nil_r |].
  eexists. reflexivity.
Qed.

Lemma join_last (sep : str) (parts : list str) :
  parts <> [] -> exists x, join sep parts = x ++ List.last parts [].
Proof.
  induction parts as [|p parts IH]; [congruence |]. intros _.
  destruct parts as [|q parts]; [exists []; reflexivity |].
  destruct IH as [x Hx]; [discriminate |].
  exists (p ++ sep ++ x).
  change (join sep (p :: q :: parts)) with (p ++ sep ++ join sep (q :: parts)).
  rewrite Hx, <- !app_assoc. reflexivity.
Qed.

Lemma join_stripped (sep : str) (parts : list str) :
  parts <> [] ->
  (forall p, In p parts -> p <> [] /\ strip p = p) ->
  join sep parts <> [] /\ strip (join sep parts) = join sep parts.
Proof.
  intros Hne Hall.
  destruct (join_last sep parts Hne) as [y Hy].
  destruct (Hall (List.last parts []) (last_In _ _ Hne)) as [Hln Hls].
  destruct parts as [|p parts]; [congruence |].
  destruct (join_head sep p parts) as [x Hx].
  destruct (Hall p (or_introl eq_refl)) as [Hpn Hps].
  apply strip_fixed_iff in Hps. apply strip_fixed_iff in Hls.
  split; [rewrite Hx; destruct p; [congruence | discriminate] |].
  apply strip_fixed_iff. split.
  - rewrite Hx. apply lstrip_fixed_app; [exact Hpn | apply Hps].
  - rewrite Hy, rev_app_distr. apply lstrip_fixed_app; [| apply Hls].
    intros E. apply (f_equal (@rev N)) in E. rewrite rev_involutive in E.
    apply Hln, E.
Qed.

(** ** More on the reply parser *)

(** *** The fallback rule in the words of the specification *)

(** What [lstrip] removes is whitespace. *)
Lemma lstrip_spaces (s : str) :
  exists p, s = p ++ lstrip s /\ forallb isspace p = true.
Proof.
  induction s as [|c s (p & IH & Hp)]; simpl; [exists []; split; reflexivity |].
  destruct (isspace c) eqn:E; [| exists []; split; reflexivity].
  exists (c :: p). simpl. rewrite E, Hp, <- IH. split; reflexivity.
Qed.

Lemma forallb_rev {A} (f : A -> bool) (l : list A) :
  forallb f (rev l) = forallb f l.
Proof.
  induction l as [|x l IH]; simpl; [reflexivity |].
  rewrite forallb_app, IH. simpl. rewrite andb_true_r. apply andb_comm.
Qed.

(** [strip] removes whitespace at both ends and nothing else. *)
Lemma strip_spaces (s : str) :
  exists p q,
    s = p ++ strip s ++ q
    /\ forallb isspace p = true /\ forallb isspace q = true.
Proof.
  destruct (lstrip_spaces s) as (p & Hp & Sp).
  destruct (lstrip_spaces (rev (lstrip s))) as (q & Hq & Sq).
  exists p, (rev q). split; [| split; [exact Sp | rewrite forallb_rev; exact Sq]].
  unfold strip, rstrip. rewrite <- rev_app_distr, <- Hq, rev_involutive.
  exact Hp.
Qed.

Lemma lstrip_nil_iff (s : str) : lstrip s = [] <-> forallb isspace s = true.
Proof.
  induction s as [|c s IH]; simpl; [split; reflexivity |].
  destruct (isspace c); simpl; [exact IH | split; discriminate].
Qed.

(** A line strips to nothing exactly when it is blank. *)
Lemma strip_nil_iff (s : str) : strip s = [] <-> blank s = true.
Proof.
  unfold blank. rewrite <- lstrip_nil_iff. unfold strip, rstrip. split.
  - intros H. apply (f_equal (@rev N)) in H. rewrite rev_involutive in H.
    simpl in H. apply lstrip_nil_iff in H. rewrite forallb_rev in H.
    pose proof (lstrip_idem s) as Hi.
    destruct (lstrip s) as [|c t]; [reflexivity |].
    apply lstrip_fixed_head in Hi. simpl in H. rewrite Hi in H. discriminate.
  - intros ->. reflexivity.
Qed.

Lemma truthy_strip (s : str) : truthy (strip s) = negb (blank s).
Proof.
  destruct (blank s) eqn:E.
  - apply strip_nil_iff in E. rewrite E. reflexivity.
  - destruct (strip s) eqn:S; [| reflexivity].
    apply strip_nil_iff in S. congruence.
Qed.

Lemma last_of_rev {A} (l r : list A) (d x : A) :
  rev l = d :: r -> List.last l x = d.
Proof.
  intros H. apply (f_equal (@rev A)) in H. rewrite rev_involutive in H.
  subst l. simpl. apply last_last.
Qed.

Lemma strip_trimmed (s : str) : blank s = false -> trimmed (strip s) = true.
Proof.
  intros Hb. pose proof (strip_idem s) as Hi.
  apply strip_fixed_iff in Hi. destruct Hi as [H1 H2].
  destruct (strip s) as [|c t] eqn:S;
    [apply strip_nil_iff in S; congruence |].
  unfold trimmed. apply lstrip_fixed_head in H1. rewrite H1. cbn [negb andb].
  destruct (rev (c :: t)) as [|d r] eqn:R.
  - apply (f_equal (@length N)) in R. rewrite length_rev in R. discriminate.
  - apply lstrip_fixed_head in H2.
    rewrite (last_of_rev (c :: t) r d c R), H2. reflexivity.
Qed.

(** The list of line 117 is, line by line, the non-blank lines of the
    reply without the whitespace around them. *)
Lemma lines_are_trimmed_lines (text : str) :
  Forall2 is_trim_of (lines text)
    (List.filter (fun ln => negb (blank ln)) (splitlines text)).
Proof.
  unfold lines.
  rewrite (filter_ext (fun ln => truthy (strip ln))
             (fun ln => negb (blank ln)) truthy_strip).
  induction (splitlines text) as [|ln l IH]; simpl; [constructor |].
  destruct (blank ln) eqn:E; simpl; [exact IH |].
  constructor; [| exact IH]. split; [apply strip_trimmed, E |].
  destruct (strip_spaces ln) as (p & q & H & Hp & Hq).
  exists p, q. split; [exact H | split; assumption].
Qed.

(** Joining with a separator and closing with one more is writing the
    separator after every part. *)
Lemma join_then_sep (sep : str) (parts : list str) :
  parts <> [] ->
  join sep parts ++ sep = flat_map (fun l => l ++ sep) parts.
Proof.
  induction parts as [|p parts IH]; [congruence |]. intros _.
  destruct parts as [|q parts]; [simpl; rewrite app_nil_r; reflexivity |].
  change (join sep (p :: q :: parts)) with (p ++ sep ++ join sep (q :: parts)).
  change (flat_map (fun l => l ++ sep) (p :: q :: parts))
    with ((p ++ sep) ++ flat_map (fun l => l ++ sep) (q :: parts)).
  rewrite <- IH by discriminate. rewrite <- !app_assoc. reflexivity.
Qed.

(** C3.  Take a reply in which the uppercase scan misses at least one
    marker and which has two or more lines that are not blank.  Trim each
    of these lines ([ls], in the order of the reply); then the moral is the
    last of them, and the story is the ones before it, each followed by a
    newline but for the last. *)
Theorem fallback_takes_last_line_as_moral (text : str) :
  contains (lit "STORY:") (upper text) = false
  \/ contains (lit "MORAL:") (upper text) = false ->
  (2 <= length (List.filter (fun ln => negb (blank ln)) (splitlines text)))%nat ->
  exists ls,
    Forall2 is_trim_of ls
      (List.filter (fun ln => negb (blank ln)) (splitlines text))
    /\ snd (story_and_moral text) = List.last ls []
    /\ fst (story_and_moral text) ++ [10%N]
       = flat_map (fun l => l ++ [10%N]) (List.removelast ls)
    /\ ls = lines text.
Proof.
  intros Habsent Hlen.
  pose proof (lines_are_trimmed_lines text) as HF.
  assert (Hl : (2 <= length (lines text))%nat)
    by (rewrite (Forall2_length _ _ _ HF); exact Hlen).
  exists (lines text). split; [exact HF |].
  unfold story_and_moral.
  replace (contains (lit "STORY:") (upper text)
           && contains (lit "MORAL:") (upper text)) with false
    by (destruct Habsent as [-> | ->]; [| rewrite andb_false_r]; reflexivity).
  cbv zeta. destruct (Nat.leb_spec 2 (length (lines text))); [| lia].
  cbn [fst snd]. split; [reflexivity |]. split; [| reflexivity].
  apply join_then_sep.
  destruct (lines text) as [|a [|b l]]; simpl in Hl; try lia. discriminate.
Qed.

(** The reply ["Line A" / "Line B"] of the claim, and a reply of three
    lines with blanks around them and a blank line between. *)
Lemma fallback_two_lines :
  story_and_moral (lit "Line A" ++ [10%N] ++ lit "Line B")
    = (lit "Line A", lit "Line B")
  /\ story_and_moral (lit "  Line A " ++ [10; 32; 10; 9]%N ++ lit "Line B"
                      ++ [32; 13; 10]%N ++ lit " Line C  ")
     = (lit "Line A" ++ [10%N] ++ lit "Line B", lit "Line C").
Proof.
  split.
  - destruct (fallback_takes_last_line_as_moral
                (lit "Line A" ++ [10%N] ++ lit "Line B"))
      as (ls & _ & Hm & Hs & ->);
      [left; vm_compute; reflexivity | vm_compute; lia |].
    destruct (story_and_moral _) as [story moral]. cbn [fst snd] in Hm, Hs.
    apply (app_inj_tail story (lit "Line A") 10%N 10%N) in Hs.
    destruct Hs as [-> _]. rewrite Hm. vm_compute. reflexivity.
  - destruct (fallback_takes_last_line_as_moral
                (lit "  Line A " ++ [10; 32; 10; 9]%N ++ lit "Line B"
                 ++ [32; 13; 10]%N ++ lit " Line C  "))
      as (ls & _ & Hm & Hs & ->);
      [left; vm_compute; reflexivity | vm_compute; lia |].
    destruct (story_and_moral _) as [story moral]. cbn [fst snd] in Hm, Hs.
    apply (app_inj_tail story (lit "Line A" ++ [10%N] ++ lit "Line B")
             10%N 10%N) in Hs.
    destruct Hs as [-> _]. rewrite Hm. vm_compute. reflexivity.
Defined.

(** The moral never starts or ends with whitespace, whatever the reply. *)
Lemma moral_is_stripped (text : str) :
  strip (snd (story_and_moral text)) = snd (story_and_moral text).
Proof.
  unfold story_and_moral.
  destruct (contains (lit "STORY:") (upper text)
            && contains (lit "MORAL:") (upper text)); cbv zeta.
  - apply strip_idem.
  - destruct (Nat.leb_spec 2 (length (lines text))) as [H | H]; [| reflexivity].
    cbn [snd]. apply (lines_elements text). apply last_In.
    destruct (lines text); [simpl in H; lia | discriminate].
Qed.

(** For a stripped reply, as [generate_story_and_moral] passes, the story
    is stripped too. *)
Lemma story_is_stripped (text : str) :
  strip text = text ->
  strip (fst (story_and_moral text)) = fst (story_and_moral text).
Proof.
  intros Ht. unfold story_and_moral.
  destruct (contains (lit "STORY:") (upper text)
            && contains (lit "MORAL:") (upper text)); cbv zeta.
  - apply strip_idem.
  - destruct (Nat.leb_spec 2 (length (lines text))) as [H | H]; [| exact Ht].
    cbn [fst]. apply join_stripped.
    + destruct (lines text) as [|a [|b l]]; simpl in H; try lia. discriminate.
    + intros p Hp. apply removelast_In in Hp.
      destruct (lines_elements text p Hp) as (? & ? & _). split; assumption.
Qed.

(** X1.  In the fallback with two or more lines nothing is lost to
    emptiness: the moral is one non-empty line, and the story is not
    empty. *)
Theorem fallback_moral_is_one_line (text : str) :
  contains (lit "STORY:") (upper text) = false
  \/ contains (lit "MORAL:") (upper text) = false ->
  (2 <= length (lines text))%nat ->
  snd (story_and_moral text) <> []
  /\ Forall (fun c => is_linebreak c = false) (snd (story_and_moral text))
  /\ fst (story_and_moral text) <> [].
Proof.
  intros Habsent Hlen. unfold story_and_moral.
  replace (contains (lit "STORY:") (upper text)
           && contains (lit "MORAL:") (upper text)) with false
    by (destruct Habsent as [-> | ->]; [| rewrite andb_false_r]; reflexivity).
  cbv zeta. destruct (Nat.leb_spec 2 (length (lines text))); [| lia].
  cbn [fst snd].
  assert (Hne : lines text <> []) by (destruct (lines text); [simpl in *; lia | discriminate]).
  destruct (lines_elements text _ (last_In (lines text) [] Hne)) as (H1 & _ & H3).
  split; [exact H1 |]. split; [exact H3 |].
  apply join_stripped.
  - destruct (lines text) as [|a [|b l]]; simpl in *; try lia. discriminate.
  - intros p Hp. apply removelast_In in Hp.
    destruct (lines_elements text p Hp) as (? & ? & _). split; assumption.
Qed.

(** A reply of three lines, one of them blank. *)
Lemma fallback_moral_three_lines :
  snd (story_and_moral (lit "One" ++ [10; 32; 10]%N ++ lit "Two")) <> []
  /\ fst (story_and_moral (lit "One" ++ [10; 32; 10]%N ++ lit "Two")) <> [].
Proof.
  destruct (fallback_moral_is_one_line (lit "One" ++ [10; 32; 10]%N ++ lit "Two"))
    as (H1 & _ & H2).
  - left. vm_compute. reflexivity.
  - vm_compute. lia.
  - split; assumption.
Defined.

(** *** Offsets in the uppercased reply *)

(** When every character keeps its length, [upper] is a [map]. *)
Lemma upper_single (s : str) :
  Forall (fun c => length (upper_char c) = 1%nat) s ->
  upper s = map (fun c => hd c (upper_char c)) s.
Proof.
  induction 1 as [|c s Hc _ IH]; [reflexivity |].
  unfold upper in *. simpl. rewrite IH.
  destruct (upper_char c) as [|u [|? ?]]; simpl in Hc; try lia. reflexivity.
Qed.

Lemma startswith_iff (sub s : str) :
  startswith sub s = true <-> take (length sub) s = sub.
Proof.
  revert s. induction sub as [|a sub IH]; intros s; simpl.
  - split; reflexivity.
  - destruct s as [|b s]; simpl; [split; discriminate |].
    rewrite andb_true_iff, N.eqb_eq, IH. split.
    + intros [-> ->]. reflexivity.
    + intros H. injection H as -> H. split; [reflexivity | exact H].
Qed.

Lemma find_from_range (sub s : str) (k : Z) :
  find_from sub s k = (-1)%Z \/ (k <= find_from sub s k)%Z.
Proof.
  destruct (contains sub s) eqn:E.
  - right. apply find_from_present, E.
  - left. apply find_from_absent, E.
Qed.

(** [find] answers the first place where [sub] starts. *)
Lemma find_from_first (sub s : str) (k i : Z) :
  (0 <= k <= i)%Z -> find_from sub s k = i ->
  startswith sub (drop (Z.to_nat (i - k)) s) = true
  /\ forall j, (k <= j < i)%Z ->
       startswith sub (drop (Z.to_nat (j - k)) s) = false.
Proof.
  revert k. induction s as [|c s IH]; intros k Hk; simpl.
  - destruct (startswith sub []) eqn:E; intros <-; [| lia].
    rewrite Z.sub_diag. split; [exact E | intros; lia].
  - destruct (startswith sub (c :: s)) eqn:E.
    + intros <-. rewrite Z.sub_diag. split; [exact E | intros; lia].
    + intros Hi.
      destruct (find_from_range sub s (k + 1)) as [R | R]; rewrite Hi in R;
        [lia |].
      destruct (IH (k + 1)%Z ltac:(lia) Hi) as [H1 H2].
      split.
      * replace (Z.to_nat (i - k)) with (S (Z.to_nat (i - (k + 1)))) by lia.
        exact H1.
      * intros j Hj. destruct (Z.eq_dec j k) as [-> | Hne].
        -- rewrite Z.sub_diag. exact E.
        -- replace (Z.to_nat (j - k)) with (S (Z.to_nat (j - (k + 1)))) by lia.
           apply H2. lia.
Qed.

Lemma slice_take_drop (s : str) (j : Z) (n : nat) :
  (0 <= j)%Z -> slice s j (j + Z.of_nat n) = take n (drop (Z.to_nat j) s).
Proof.
  intros Hj. unfold slice, clamp_index.
  destruct (Z.ltb_spec j 0); [lia |].
  destruct (Z.ltb_spec (j + Z.of_nat n) 0); [lia |].
  destruct (Z_le_gt_dec j (Z.of_nat (length s))) as [Hle | Hgt].
  - rewrite (Z.min_l j) by lia.
    destruct (Z_le_gt_dec (j + Z.of_nat n) (Z.of_nat (length s))).
    + rewrite Z.min_l by lia. f_equal. lia.
    + rewrite Z.min_r by lia.
      rewrite !take_ge; [reflexivity | |]; rewrite length_drop; lia.
  - rewrite !Z.min_r by lia.
    rewrite !drop_ge by lia. rewrite !take_nil. reflexivity.
Qed.

(** X2.  In a reply whose characters all keep their length in uppercase,
    the offset the scan finds is the first place where the reply itself
    has the marker, in whatever case. *)
Theorem offset_points_at_first_marker (sub text : str) :
  Forall (fun c => length (upper_char c) = 1%nat) text ->
  (0 <= find sub (upper text))%Z ->
  upper (slice text (find sub (upper text)) (find sub (upper text) + len sub))
    = sub
  /\ forall j, (0 <= j < find sub (upper text))%Z ->
       upper (slice text j (j + len sub)) <> sub.
Proof.
  intros Hone Hfound.
  assert (Hsl : forall j, (0 <= j)%Z ->
            upper (slice text j (j + len sub))
            = take (length sub) (drop (Z.to_nat j) (upper text))).
  { intros j Hj. unfold len. rewrite slice_take_drop by exact Hj.
    rewrite (upper_single text Hone).
    rewrite upper_single.
    - rewrite skipn_map, firstn_map. reflexivity.
    - apply Forall_take, Forall_drop, Hone. }
  destruct (find_from_first sub (upper text) 0 (find sub (upper text)))
    as [H1 H2]; [lia | reflexivity |].
  rewrite Z.sub_0_r in H1. split.
  - rewrite Hsl by exact Hfound. apply startswith_iff, H1.
  - intros j Hj. rewrite Hsl by lia. intros E.
    apply startswith_iff in E. specialize (H2 j Hj).
    rewrite Z.sub_0_r in H2. congruence.
Qed.

(** Letters, digits and the rest of ASCII keep their length. *)
Lemma ascii_keeps_length (text : str) :
  Forall (fun c => (c < 128)%N) text ->
  Forall (fun c => length (upper_char c) = 1%nat) text.
Proof.
  assert (T : forallb (fun n => (length (upper_char (N.of_nat n)) =? 1)%nat)
                (seq 0 128) = true) by (vm_compute; reflexivity).
  rewrite forallb_forall in T.
  intros H. eapply Forall_impl; [exact H |]. intros c Hc. cbv beta in *.
  specialize (T (N.to_nat c)). rewrite N2Nat.id in T.
  apply Nat.eqb_eq, T, in_seq. lia.
Qed.

(** The reply ["Once. Moral: be kind."], with the marker at offset 6. *)
Lemma offset_in_ascii_reply :
  find (lit "MORAL:") (upper (lit "Once. Moral: be kind.")) = 6%Z
  /\ upper (slice (lit "Once. Moral: be kind.") 6 12) = lit "MORAL:".
Proof.
  assert (F : find (lit "MORAL:") (upper (lit "Once. Moral: be kind.")) = 6%Z)
    by (vm_compute; reflexivity).
  split; [exact F |].
  destruct (offset_points_at_first_marker (lit "MORAL:")
              (lit "Once. Moral: be kind.")) as [H _].
  - apply ascii_keeps_length. vm_compute. repeat constructor.
  - rewrite F. lia.
  - rewrite F in H. exact H.
Defined.

(** *** A reply with the moral first *)

(** Whitespace has no uppercase form of its own. *)
Lemma upper_space (c : N) : isspace c = true -> upper_char c = [c].
Proof.
  assert (T : forallb (fun n => implb (isspace (N.of_nat n))
                                  match upper_char (N.of_nat n) with
                                  | [d] => (d =? N.of_nat n)%N
                                  | _ => false
                                  end)
                (seq 0 (N.to_nat 12289)) = true) by (vm_compute; reflexivity).
  rewrite forallb_forall in T. intros H.
  assert (Hc : (c < 12289)%N).
  { unfold isspace in H.
    repeat match type of H with
           | (_ || _) = true => apply orb_true_iff in H; destruct H as [H | H]
           end;
      repeat match type of H with
             | (_ && _) = true => apply andb_true_iff in H; destruct H as [H ?]
             end;
      repeat match goal with
             | X : (_ <=? _)%N = true |- _ => apply N.leb_le in X
             | X : (_ =? _)%N = true |- _ => apply N.eqb_eq in X
             end; lia. }
  specialize (T (N.to_nat c)). rewrite N2Nat.id, H in T. simpl implb in T.
  destruct (upper_char c) as [|d [|? ?]];
    try (discriminate T; apply in_seq; lia).
  f_equal. apply N.eqb_eq, T, in_seq. lia.
Qed.

Lemma upper_spaces (p : str) : forallb isspace p = true -> upper p = p.
Proof.
  induction p as [|c p IH]; simpl; [reflexivity |].
  intros H. apply andb_true_iff in H. destruct H as [Hc Hp].
  unfold upper in *. simpl. rewrite (upper_space c Hc), (IH Hp). reflexivity.
Qed.

(** A search for a text that begins with no whitespace may skip leading
    whitespace, and one for a text without whitespace may skip trailing
    whitespace. *)
Lemma contains_skip_prefix (a : N) (sub p l : str) :
  isspace a = false -> forallb isspace p = true ->
  contains (a :: sub) (p ++ l) = contains (a :: sub) l.
Proof.
  intros Ha. induction p as [|c p IH]; [reflexivity |].
  intros H. simpl in H. apply andb_true_iff in H. destruct H as [Hc Hp].
  change (contains (a :: sub) ((c :: p) ++ l))
    with (startswith (a :: sub) (c :: p ++ l) || contains (a :: sub) (p ++ l)).
  rewrite (IH Hp). simpl startswith.
  destruct (N.eqb_spec a c) as [-> | _]; [congruence | reflexivity].
Qed.

Lemma startswith_skip_suffix (sub l q : str) :
  forallb isspace sub = false \/ sub = [] ->
  forallb (fun c => negb (isspace c)) sub = true ->
  forallb isspace q = true ->
  startswith sub (l ++ q) = true -> startswith sub l = true.
Proof.
  intros _ Hsub Hq. revert l.
  induction sub as [|a sub IH]; intros l H; [reflexivity |].
  simpl in Hsub. apply andb_true_iff in Hsub. destruct Hsub as [Ha Hsub].
  destruct l as [|b l].
  - destruct q as [|c q]; [discriminate H |].
    simpl in H, Hq. apply andb_true_iff in H. destruct H as [H _].
    apply N.eqb_eq in H. subst c.
    apply andb_true_iff in Hq. destruct Hq as [Hq _].
    rewrite Hq in Ha. discriminate.
  - simpl in *. apply andb_true_iff in H. destruct H as [H1 H2].
    rewrite H1. apply (IH Hsub), H2.
Qed.

Lemma contains_skip_suffix (a : N) (sub l q : str) :
  forallb (fun c => negb (isspace c)) (a :: sub) = true ->
  forallb isspace q = true ->
  contains (a :: sub) (l ++ q) = true -> contains (a :: sub) l = true.
Proof.
  intros Hsub Hq. induction l as [|b l IH]; intros H.
  - simpl app in H.
    rewrite <- (app_nil_r q), contains_skip_prefix in H; [exact H | | exact Hq].
    simpl in Hsub. apply andb_true_iff in Hsub. destruct Hsub as [Ha _].
    destruct (isspace a); [discriminate | reflexivity].
  - change (contains (a :: sub) ((b :: l) ++ q))
      with (startswith (a :: sub) ((b :: l) ++ q)
            || contains (a :: sub) (l ++ q)) in H.
    change (contains (a :: sub) (b :: l))
      with (startswith (a :: sub) (b :: l) || contains (a :: sub) l).
    apply orb_true_iff in H. apply orb_true_iff. destruct H as [H | H].
    + left. apply (startswith_skip_suffix (a :: sub) (b :: l) q);
        [left | | |]; try assumption.
      simpl in Hsub. apply andb_true_iff in Hsub. destruct Hsub as [Ha _].
      simpl. destruct (isspace a); [discriminate | reflexivity].
    + right. apply IH, H.
Qed.

(** A text that starts somewhere in [l] occurs in [l]. *)
Lemma startswith_drop_contains (sub l : str) (j : nat) :
  startswith sub (drop j l) = true -> contains sub l = true.
Proof.
  revert l. induction j as [|j IH]; intros l H.
  - rewrite drop_0 in H. destruct l; simpl in *; rewrite H; reflexivity.
  - destruct l as [|c l].
    + simpl in *. rewrite H. reflexivity.
    + simpl in H. apply IH in H. simpl. rewrite H. apply orb_true_r.
Qed.

Lemma slice_from_drop (s : str) (j : Z) :
  (0 <= j)%Z -> slice_from s j = drop (Z.to_nat j) s.
Proof.
  intros Hj. unfold slice_from, clamp_index.
  destruct (Z.ltb_spec j 0); [lia |].
  destruct (Z_le_gt_dec j (Z.of_nat (length s))).
  - rewrite Z.min_l by lia. reflexivity.
  - rewrite Z.min_r by lia. rewrite !drop_ge by lia. reflexivity.
Qed.

(** The two markers cannot overlap: none of the letters of ["MORAL:"]
    after the first is an [S]. *)
Lemma markers_do_not_overlap (up : str) (m s : nat) :
  startswith (lit "MORAL:") (drop m up) = true ->
  startswith (lit "STORY:") (drop s up) = true ->
  (m < s)%nat -> (m + 6 <= s)%nat.
Proof.
  intros Hm Hs Hlt. apply startswith_iff in Hm.
  assert (Hd : drop m up = lit "MORAL:" ++ drop 6 (drop m up)).
  { rewrite <- Hm at 1. symmetry. apply take_drop. }
  destruct (Nat.le_gt_cases (m + 6) s) as [|Hgt]; [assumption | exfalso].
  replace s with (m + (s - m))%nat in Hs by lia.
  rewrite <- drop_drop, Hd in Hs.
  assert (Hk : (s - m = 1 \/ s - m = 2 \/ s - m = 3 \/ s - m = 4 \/ s - m = 5)%nat)
    by lia.
  destruct Hk as [E | [E | [E | [E | E]]]]; rewrite E in Hs; discriminate Hs.
Qed.

(** X3.  Take a reply whose characters all keep their length in uppercase,
    in which the scan finds ["MORAL:"] before ["STORY:"].  The story is
    empty; the moral is what follows the reply's own ["MORAL:"] marker,
    stripped; and this moral still holds the ["STORY:"] marker. *)
Theorem moral_first_leaves_no_story (text : str) :
  Forall (fun c => length (upper_char c) = 1%nat) text ->
  contains (lit "STORY:") (upper text) = true ->
  contains (lit "MORAL:") (upper text) = true ->
  (find (lit "MORAL:") (upper text) < find (lit "STORY:") (upper text))%Z ->
  fst (story_and_moral text) = []
  /\ (exists pre marker rest,
        text = pre ++ marker ++ rest
        /\ len pre = find (lit "MORAL:") (upper text)
        /\ upper marker = lit "MORAL:"
        /\ snd (story_and_moral text) = strip rest)
  /\ contains (lit "STORY:") (upper (snd (story_and_moral text))) = true.
Proof.
  intros Hone Cs Cm Hlt.
  pose proof Cm as Fm. apply contains_iff_find in Fm.
  assert (Fs : (0 <= find (lit "STORY:") (upper text))%Z) by lia.
  destruct (find_from_first (lit "MORAL:") (upper text) 0
              (find (lit "MORAL:") (upper text))) as [Sm _];
    [lia | reflexivity |].
  destruct (find_from_first (lit "STORY:") (upper text) 0
              (find (lit "STORY:") (upper text))) as [Ss _];
    [lia | reflexivity |].
  rewrite Z.sub_0_r in Sm, Ss.
  set (m := Z.to_nat (find (lit "MORAL:") (upper text))) in *.
  set (s := Z.to_nat (find (lit "STORY:") (upper text))) in *.
  assert (Em : Z.of_nat m = find (lit "MORAL:") (upper text))
    by (subst m; lia).
  assert (Es : Z.of_nat s = find (lit "STORY:") (upper text))
    by (subst s; lia).
  clearbody m s.
  assert (Hms : (m + 6 <= s)%nat)
    by (apply (markers_do_not_overlap (upper text) m s Sm Ss);
        apply Nat2Z.inj_lt; rewrite Em, Es; exact Hlt).
  assert (Hup : upper text = map (fun c => hd c (upper_char c)) text)
    by (apply upper_single, Hone).
  assert (Hlen : (m + 6 <= length text)%nat).
  { apply startswith_iff in Sm. apply (f_equal (@length N)) in Sm.
    rewrite length_take, length_drop, Hup, length_map in Sm.
    change (length (lit "MORAL:")) with 6%nat in Sm. lia. }
  assert (Hsnd : snd (story_and_moral text) = strip (drop (m + 6) text)).
  { unfold story_and_moral. rewrite Cs, Cm. cbn [andb]. cbv zeta. cbn [snd].
    change (len (lit "MORAL:")) with 6%Z.
    rewrite slice_from_drop by lia. f_equal. f_equal. lia. }
  split; [| split].
  - unfold story_and_moral. rewrite Cs, Cm. cbn [andb]. cbv zeta. cbn [fst].
    change (len (lit "STORY:")) with 6%Z.
    rewrite slice_empty; [reflexivity | lia].
  - exists (take m text), (take 6 (drop m text)), (drop (m + 6) text).
    split; [| split; [| split]].
    + rewrite <- drop_drop, take_drop, take_drop. reflexivity.
    + unfold len. rewrite length_take. lia.
    + rewrite upper_single by (apply Forall_take, Forall_drop, Hone).
      rewrite <- firstn_map, <- skipn_map, <- Hup.
      apply startswith_iff in Sm. exact Sm.
    + exact Hsnd.
  - rewrite Hsnd.
    destruct (strip_spaces (drop (m + 6) text)) as (p & q & Hpq & Hp & Hq).
    assert (Hin : contains (lit "STORY:") (upper (drop (m + 6) text)) = true).
    { rewrite upper_single by (apply Forall_drop, Hone).
      rewrite <- skipn_map, <- Hup.
      apply (startswith_drop_contains _ _ (s - (m + 6))).
      rewrite drop_drop. replace (m + 6 + (s - (m + 6)))%nat with s by lia.
      exact Ss. }
    rewrite Hpq, !upper_app, (upper_spaces p Hp), (upper_spaces q Hq) in Hin.
    change (lit "STORY:") with (83%N :: lit "TORY:") in Hin |- *.
    rewrite contains_skip_prefix in Hin; [| reflexivity | exact Hp].
    apply contains_skip_suffix in Hin; [exact Hin | reflexivity | exact Hq].
Qed.

(** The reply ["MORAL: Be brave. STORY: A fox ran."]. *)
Lemma moral_first_fox :
  story_and_moral (lit "MORAL: Be brave. STORY: A fox ran.")
    = ([], lit "Be brave. STORY: A fox ran.")
  /\ contains (lit "STORY:")
       (upper (snd (story_and_moral (lit "MORAL: Be brave. STORY: A fox ran."))))
     = true.
Proof.
  destruct (moral_first_leaves_no_story
              (lit "MORAL: Be brave. STORY: A fox ran."))
    as (H1 & _ & H3).
  - apply ascii_keeps_length. vm_compute. repeat constructor.
  - vm_compute. reflexivity.
  - vm_compute. reflexivity.
  - vm_compute. reflexivity.
  - split; [vm_compute; reflexivity | exact H3].
Defined.

(** ** More on the submit branch *)

(** The branch for a dream that is not blank, step by step. *)
Lemma submit_handler_nonblank
    (client : option Client) (exn_str : exn -> str)
    (dream_input genre length : str) (w : World) :
  truthy (strip dream_input) = true ->
  submit_handler client exn_str dream_input genre length w
  = match analyze_mood client dream_input
            (show (spinner (lit "Analyzing dream and writing story...")) w) with
    | (Raise ex, wa) => (Raise ex, wa)
    | (Ok mood, wa) =>
        match generate_story_and_moral client dream_input genre length wa with
        | (Raise ex, wb) => (Raise ex, wb)
        | (Ok (story, moral), wb) =>
            match save_locally dream_input
                    (full_text dream_input mood story moral)
                    (fold_left (fun w x => show x w)
                       (results dream_input mood story moral) wb) with
            | (Ok a, w') => (Ok a, w')
            | (Raise ex, w') =>
                (Ok tt,
                 show (warning (lit "Could not save locally: " ++ exn_str ex)) w')
            end
        end
    end.
Proof.
  intros Ht. unfold submit_handler. rewrite Ht. cbn [negb].
  rewrite bind_st, bind_run.
  destruct (analyze_mood client dream_input _) as [[mood | ex] wa];
    [| reflexivity].
  rewrite bind_run.
  destruct (generate_story_and_moral client dream_input genre length wa)
    as [[[story moral] | ex] wb]; [| reflexivity].
  rewrite !bind_st. reflexivity.
Qed.

Lemma widgets_fold_show (xs : list Widget) (w : World) :
  widgets (fold_left (fun w x => show x w) xs w) = widgets w ++ xs
  /\ calls (fold_left (fun w x => show x w) xs w) = calls w
  /\ files (fold_left (fun w x => show x w) xs w) = files w
  /\ dirs (fold_left (fun w x => show x w) xs w) = dirs w
  /\ read_only (fold_left (fun w x => show x w) xs w) = read_only w.
Proof.
  revert w. induction xs as [|x xs IH]; intros w; simpl.
  - rewrite app_nil_r. repeat split.
  - destruct (IH (show x w)) as (H1 & H2 & H3 & H4 & H5).
    rewrite H1, H2, H3, H4, H5. simpl. rewrite <- app_assoc. repeat split.
Qed.

(** What the service calls add to the request log. *)
Lemma analyze_mood_calls (cl : Client) (dream_text : str) (w : World) :
  calls (snd (analyze_mood (Some cl) dream_text w))
    = calls w ++ [mood_request dream_text].
Proof.
  unfold analyze_mood, bind, chat_completions_create.
  destruct (create cl _ _) as [e | [|[c|] resp]]; reflexivity.
Qed.

Lemma generate_calls (cl : Client) (dream_text genre length : str) (w : World) :
  calls (snd (generate_story_and_moral (Some cl) dream_text genre length w))
    = calls w ++ [story_request dream_text genre length].
Proof.
  unfold generate_story_and_moral, bind, chat_completions_create.
  destruct (create cl _ _) as [e | [|[c|] resp]]; reflexivity.
Qed.

(** X5.  A failure of the mood call ends the submission: the exception is
    passed on, the story request is never sent, the page shows the spinner
    and nothing else, and the file system is as before. *)
Theorem mood_failure_ends_submission
    (cl : Client) (exn_str : exn -> str)
    (dream_input genre length : str) (w wa : World) (ex : exn) :
  truthy (strip dream_input) = true ->
  analyze_mood (Some cl) dream_input
    (show (spinner (lit "Analyzing dream and writing story...")) w)
    = (Raise ex, wa) ->
  submit_handler (Some cl) exn_str dream_input genre length w = (Raise ex, wa)
  /\ calls wa = calls w ++ [mood_request dream_input]
  /\ widgets wa
     = widgets w ++ [spinner (lit "Analyzing dream and writing story...")]
  /\ files wa = files w /\ dirs wa = dirs w.
Proof.
  intros Ht Ha.
  pose proof (analyze_mood_calls cl dream_input
                (show (spinner (lit "Analyzing dream and writing story...")) w))
    as Hc.
  pose proof (analyze_mood_same_page_and_disk (Some cl) dream_input
                (show (spinner (lit "Analyzing dream and writing story...")) w))
    as (Hw & Hd & Hf & _).
  rewrite Ha in Hc, Hw, Hd, Hf. cbn [snd] in *.
  rewrite submit_handler_nonblank by exact Ht. rewrite Ha.
  repeat split; assumption.
Qed.

(** A service that refuses every request. *)
Lemma mood_failure_rate_limit :
  fst (submit_handler (Some failing_client) (fun _ => []) (lit "I was flying")
         (lit "Fantasy") (lit "Medium") fresh_world)
    = Raise (APIError (lit "rate limit"))
  /\ length (calls (snd (submit_handler (Some failing_client) (fun _ => [])
                           (lit "I was flying") (lit "Fantasy") (lit "Medium")
                           fresh_world))) = 1%nat.
Proof.
  destruct (mood_failure_ends_submission failing_client (fun _ => [])
              (lit "I was flying") (lit "Fantasy") (lit "Medium") fresh_world
              (log_call (mood_request (lit "I was flying"))
                 (show (spinner (lit "Analyzing dream and writing story..."))
                    fresh_world))
              (APIError (lit "rate limit")))
    as (H & _); [vm_compute; reflexivity | reflexivity |].
  rewrite H. split; reflexivity.
Defined.

(** X6.  A failure of the story call, after the mood was found, ends the
    submission as well: the exception is passed on, two requests were sent,
    the mood is not shown, and the file system is as before. *)
Theorem story_failure_ends_submission
    (cl : Client) (exn_str : exn -> str)
    (dream_input genre length mood : str) (w wa wb : World) (ex : exn) :
  truthy (strip dream_input) = true ->
  analyze_mood (Some cl) dream_input
    (show (spinner (lit "Analyzing dream and writing story...")) w)
    = (Ok mood, wa) ->
  generate_story_and_moral (Some cl) dream_input genre length wa
    = (Raise ex, wb) ->
  submit_handler (Some cl) exn_str dream_input genre length w = (Raise ex, wb)
  /\ calls wb = calls w ++ [mood_request dream_input;
                            story_request dream_input genre length]
  /\ widgets wb
     = widgets w ++ [spinner (lit "Analyzing dream and writing story...")]
  /\ files wb = files w /\ dirs wb = dirs w.
Proof.
  intros Ht Ha Hg.
  pose proof (analyze_mood_calls cl dream_input
                (show (spinner (lit "Analyzing dream and writing story...")) w))
    as Hc.
  pose proof (analyze_mood_same_page_and_disk (Some cl) dream_input
                (show (spinner (lit "Analyzing dream and writing story...")) w))
    as (Hw & Hd & Hf & _).
  rewrite Ha in Hc, Hw, Hd, Hf. cbn [snd] in *.
  pose proof (generate_calls cl dream_input genre length wa) as Hc'.
  pose proof (generate_same_page_and_disk (Some cl) dream_input genre length wa)
    as (Hw' & Hd' & Hf' & _).
  rewrite Hg in Hc', Hw', Hd', Hf'. cbn [snd] in *.
  rewrite submit_handler_nonblank by exact Ht. rewrite Ha, Hg.
  split; [reflexivity |].
  split; [rewrite Hc', Hc, <- app_assoc; reflexivity |].
  split; [rewrite Hw', Hw; reflexivity |].
  split; [rewrite Hf', Hf; reflexivity | rewrite Hd', Hd; reflexivity].
Qed.

(** A service that answers the first request only. *)
Lemma story_failure_second_request :
  fst (submit_handler (Some flaky_client) (fun _ => []) (lit "I was flying")
         (lit "Fantasy") (lit "Medium") fresh_world)
    = Raise (APIError (lit "rate limit"))
  /\ widgets (snd (submit_handler (Some flaky_client) (fun _ => [])
                     (lit "I was flying") (lit "Fantasy") (lit "Medium")
                     fresh_world))
     = [spinner (lit "Analyzing dream and writing story...")].
Proof.
  destruct (story_failure_ends_submission flaky_client (fun _ => [])
              (lit "I was flying") (lit "Fantasy") (lit "Medium") (lit "Happy")
              fresh_world
              (log_call (mood_request (lit "I was flying"))
                 (show (spinner (lit "Analyzing dream and writing story..."))
                    fresh_world))
              (log_call (story_request (lit "I was flying") (lit "Fantasy")
                           (lit "Medium"))
                 (log_call (mood_request (lit "I was flying"))
                    (show (spinner (lit "Analyzing dream and writing story..."))
                       fresh_world)))
              (APIError (lit "rate limit")))
    as (H & _ & Hw & _);
    [vm_compute; reflexivity | vm_compute; reflexivity | reflexivity |].
  rewrite H. split; [reflexivity | exact Hw].
Defined.

(** *** The save step, forwards *)

Lemma saved_name_not_stories (b : bytes) : saved_name b <> lit "stories".
Proof.
  unfold saved_name. intros H. apply (f_equal (@length N)) in H.
  rewrite !length_app in H. simpl in H. lia.
Qed.

(** With both texts encodable, a writable file system, no file in the way
    of the directory and no directory in the way of the file, the save
    goes through. *)
Lemma save_locally_ok (dream_input text : str) (w : World) (b data : bytes) :
  encode dream_input = Some b -> encode text = Some data ->
  read_only w = false ->
  lit "stories" ∈ dirs w \/ files w !! lit "stories" = None ->
  saved_name b ∉ dirs w ->
  exists w',
    save_locally dream_input text w = (Ok tt, w')
    /\ widgets w' = widgets w ++ [info (lit "Saved locally: " ++ saved_name b)]
    /\ files w' = <[saved_name b := data]> (files w)
    /\ calls w' = calls w.
Proof.
  intros Eb Ed Hro Hst Hname.
  pose proof (saved_name_not_stories b) as Hne.
  unfold save_locally, bind, os_makedirs, str_encode, open_w, f_write, st,
    raise, ret.
  rewrite Eb, Ed, Hro. unfold saved_name in *.
  destruct (decide (lit "stories" ∈ dirs w)) as [Hd | Hd].
  - match goal with
    | |- context [decide ?P] => destruct (decide P); [contradiction |]
    end.
    rewrite Hro. eexists. split; [reflexivity |].
    split; [reflexivity |]. split; [| reflexivity].
    cbn [files show put_file]. apply insert_insert_eq.
  - destruct Hst as [Hst | Hst]; [contradiction |].
    destruct (decide (is_Some (files w !! lit "stories"))) as [Hf | Hf];
      [rewrite Hst in Hf; destruct Hf; discriminate |].
    cbn [dirs add_dir read_only].
    match goal with
    | |- context [decide ?P] => destruct (decide P); [set_solver |]
    end.
    rewrite Hro. eexists. split; [reflexivity |].
    split; [reflexivity |]. split; [| reflexivity].
    cbn [files show put_file add_dir]. apply insert_insert_eq.
Qed.

(** Whatever happens in the save step, it logs no request, keeps every
    directory, and leaves every path but its own as it was. *)
Lemma save_locally_frame (dream_input text : str) (w : World) :
  calls (snd (save_locally dream_input text w)) = calls w
  /\ dirs w ⊆ dirs (snd (save_locally dream_input text w))
  /\ forall p, (forall b, encode dream_input = Some b -> p <> saved_name b) ->
       files (snd (save_locally dream_input text w)) !! p = files w !! p.
Proof.
  unfold save_locally, bind, os_makedirs, str_encode, open_w, f_write, st,
    raise, ret.
  destruct (encode dream_input) as [b |] eqn:Eb;
    destruct (encode text) as [data |] eqn:Ed;
    destruct (read_only w) eqn:Hro;
    repeat match goal with
           | |- context [decide ?P] => destruct (decide P)
           end;
    cbn [dirs add_dir read_only]; try rewrite Hro;
    repeat match goal with
           | |- context [decide ?P] => destruct (decide P)
           end;
    cbn [snd calls dirs files show put_file add_dir];
    (split; [reflexivity |]); (split; [set_solver |]);
    intros p Hp; try reflexivity;
    fold (saved_name b);
    rewrite ?lookup_insert_ne by (apply not_eq_sym, Hp; reflexivity);
    reflexivity.
Qed.

(** The world in which the save step starts. *)
Lemma before_save
    (client : option Client) (dream_input genre length mood story moral : str)
    (w wa wb : World) :
  analyze_mood client dream_input
    (show (spinner (lit "Analyzing dream and writing story...")) w)
    = (Ok mood, wa) ->
  generate_story_and_moral client dream_input genre length wa
    = (Ok (story, moral), wb) ->
  widgets (fold_left (fun w x => show x w)
             (results dream_input mood story moral) wb)
    = widgets w ++ [spinner (lit "Analyzing dream and writing story...")]
      ++ results dream_input mood story moral
  /\ files (fold_left (fun w x => show x w)
              (results dream_input mood story moral) wb) = files w
  /\ dirs (fold_left (fun w x => show x w)
             (results dream_input mood story moral) wb) = dirs w
  /\ read_only (fold_left (fun w x => show x w)
                  (results dream_input mood story moral) wb) = read_only w
  /\ calls (fold_left (fun w x => show x w)
              (results dream_input mood story moral) wb) = calls wb.
Proof.
  intros Ha Hg.
  pose proof (analyze_mood_same_page_and_disk client dream_input
                (show (spinner (lit "Analyzing dream and writing story...")) w))
    as (Hw & Hd & Hf & Hr).
  rewrite Ha in Hw, Hd, Hf, Hr. cbn [snd] in *.
  pose proof (generate_same_page_and_disk client dream_input genre length wa)
    as (Hw' & Hd' & Hf' & Hr').
  rewrite Hg in Hw', Hd', Hf', Hr'. cbn [snd] in *.
  destruct (widgets_fold_show (results dream_input mood story moral) wb)
    as (F1 & F2 & F3 & F4 & F5).
  rewrite F1, F2, F3, F4, F5, Hw', Hd', Hf', Hr', Hw, Hd, Hf, Hr.
  cbn [widgets show files dirs read_only]. rewrite <- app_assoc.
  repeat split; reflexivity.
Qed.

(** X7.  Once both calls have returned texts that UTF-8 can encode (no
    lone surrogate in the dream, the mood, the story or the moral), the
    submission ends normally whatever the file system does: the mood, the
    story, the moral and the download button are shown, and last comes
    either the path saved or the warning that saving failed. *)
Theorem results_shown_whatever_the_save
    (client : option Client) (exn_str : exn -> str)
    (dream_input genre length mood story moral : str) (w wa wb : World) :
  truthy (strip dream_input) = true ->
  analyze_mood client dream_input
    (show (spinner (lit "Analyzing dream and writing story...")) w)
    = (Ok mood, wa) ->
  generate_story_and_moral client dream_input genre length wa
    = (Ok (story, moral), wb) ->
  encode (full_text dream_input mood story moral) <> None ->
  exists last_shown w',
    submit_handler client exn_str dream_input genre length w = (Ok tt, w')
    /\ widgets w'
       = widgets w ++ [spinner (lit "Analyzing dream and writing story...")]
         ++ results dream_input mood story moral ++ [last_shown]
    /\ save_outcome exn_str last_shown.
Proof.
  intros Ht Ha Hg _.
  destruct (before_save _ _ _ _ _ _ _ _ _ _ Ha Hg) as (Hw & _).
  rewrite submit_handler_nonblank by exact Ht. rewrite Ha, Hg.
  destruct (save_locally_cases dream_input
              (full_text dream_input mood story moral)
              (fold_left (fun w x => show x w)
                 (results dream_input mood story moral) wb))
    as [(b & data & ws & _ & _ & Es & Hs & _) | (ex & ws & Es & Hs)];
    rewrite Es.
  - exists (info (lit "Saved locally: " ++ saved_name b)), ws.
    split; [reflexivity |]. split.
    + rewrite Hs, Hw, <- !app_assoc. reflexivity.
    + left. eexists. reflexivity.
  - eexists. eexists. split; [reflexivity |]. split.
    + cbn [widgets show]. rewrite Hs, Hw, <- !app_assoc. reflexivity.
    + right. eexists. reflexivity.
Qed.

(** A read-only file system: the story is shown and the warning follows. *)
Lemma results_shown_read_only :
  exists w',
    submit_handler (Some fox_client) (fun _ => lit "read-only")
      (lit "I was flying") (lit "Fantasy") (lit "Medium") read_only_world
      = (Ok tt, w')
    /\ In (write (lit "A fox ran.")) (widgets w')
    /\ last (widgets w')
       = Some (warning (lit "Could not save locally: read-only"))
    /\ files w' = ∅.
Proof.
  destruct (results_shown_whatever_the_save (Some fox_client)
              (fun _ => lit "read-only") (lit "I was flying") (lit "Fantasy")
              (lit "Medium") (lit "STORY: A fox ran. MORAL: Be brave.")
              (lit "A fox ran.") (lit "Be brave.") read_only_world
              (log_call (mood_request (lit "I was flying"))
                 (show (spinner (lit "Analyzing dream and writing story..."))
                    read_only_world))
              (log_call (story_request (lit "I was flying") (lit "Fantasy")
                           (lit "Medium"))
                 (log_call (mood_request (lit "I was flying"))
                    (show (spinner (lit "Analyzing dream and writing story..."))
                       read_only_world))))
    as (x & w' & E & Hw & _);
    [vm_compute; reflexivity | vm_compute; reflexivity
    | vm_compute; reflexivity | vm_compute; discriminate |].
  exists w'. split; [exact E |].
  assert (E' : snd (submit_handler (Some fox_client) (fun _ => lit "read-only")
                      (lit "I was flying") (lit "Fantasy") (lit "Medium")
                      read_only_world) = w') by (rewrite E; reflexivity).
  rewrite <- E'. split; [| split]; vm_compute; auto 10.
Defined.

(** X8.  A submission never touches a file other than the one named by
    the hash of its dream text, and never removes a directory. *)
Theorem other_files_untouched
    (client : option Client) (exn_str : exn -> str)
    (dream_input genre length : str) (w : World) (p : str) :
  (forall b, encode dream_input = Some b -> p <> saved_name b) ->
  files (snd (submit_handler client exn_str dream_input genre length w)) !! p
    = files w !! p
  /\ dirs w ⊆ dirs (snd (submit_handler client exn_str dream_input genre length w)).
Proof.
  intros Hp. destruct (truthy (strip dream_input)) eqn:Ht.
  - rewrite submit_handler_nonblank by exact Ht.
    pose proof (analyze_mood_same_page_and_disk client dream_input
                  (show (spinner (lit "Analyzing dream and writing story...")) w))
      as (_ & Hd & Hf & _).
    destruct (analyze_mood client dream_input _) as [[mood | ex] wa] eqn:Ha;
      cbn [snd] in *; [| rewrite Hf, Hd; split; [reflexivity | set_solver]].
    pose proof (generate_same_page_and_disk client dream_input genre length wa)
      as (_ & Hd' & Hf' & _).
    destruct (generate_story_and_moral client dream_input genre length wa)
      as [[[story moral] | ex] wb] eqn:Hg;
      cbn [snd] in *;
      [| rewrite Hf', Hd', Hf, Hd; split; [reflexivity | set_solver]].
    destruct (before_save _ _ _ _ _ _ _ _ _ _ Ha Hg) as (_ & Ff & Fd & _).
    pose proof (save_locally_frame dream_input
                  (full_text dream_input mood story moral)
                  (fold_left (fun w x => show x w)
                     (results dream_input mood story moral) wb))
      as (_ & Sd & Sf).
    specialize (Sf p Hp). rewrite Ff in Sf. rewrite Fd in Sd.
    destruct (save_locally dream_input _ _) as [[a | ex] ws];
      cbn [snd files dirs show] in *; split; assumption.
  - unfold submit_handler. rewrite Ht. cbn. split; [reflexivity | set_solver].
Qed.

(** A file of notes beside the stories. *)
Lemma other_files_notes :
  files (snd (submit_handler (Some fox_client) (fun _ => [])
                (lit "I was flying") (lit "Fantasy") (lit "Medium")
                (put_file (lit "notes.txt") [104; 105]%N fresh_world)))
    !! lit "notes.txt"
  = Some [104; 105]%N.
Proof.
  destruct (other_files_untouched (Some fox_client) (fun _ => [])
              (lit "I was flying") (lit "Fantasy") (lit "Medium")
              (put_file (lit "notes.txt") [104; 105]%N fresh_world)
              (lit "notes.txt")) as [H _].
  - intros b _. unfold saved_name. discriminate.
  - etransitivity; [exact H |]. vm_compute. reflexivity.
Defined.

(** *** UTF-8 of a concatenation *)

Lemma encode_app (a b : str) :
  encode (a ++ b)
  = match encode a, encode b with
    | Some x, Some y => Some (x ++ y)
    | _, _ => None
    end.
Proof.
  induction a as [|c a IH]; simpl.
  - destruct (encode b); reflexivity.
  - rewrite IH. destruct (encode_char c), (encode a), (encode b);
      try reflexivity. rewrite app_assoc. reflexivity.
Qed.

(** X9.  Without a client a submission still writes its file: no request
    is sent, and the file holds the dream text with the two placeholders
    for mood and story and an empty moral. *)
Theorem placeholders_are_saved_without_client
    (exn_str : exn -> str) (dream_input genre length : str) (w : World)
    (b : bytes) :
  truthy (strip dream_input) = true ->
  encode dream_input = Some b ->
  read_only w = false ->
  lit "stories" ∈ dirs w \/ files w !! lit "stories" = None ->
  saved_name b ∉ dirs w ->
  exists w',
    submit_handler None exn_str dream_input genre length w = (Ok tt, w')
    /\ calls w' = calls w
    /\ persisted w' (saved_name b)
    /\ files w'
       = <[saved_name b :=
             lit "Dream:" ++ [10%N] ++ b ++ [10%N; 10%N]
             ++ lit "Mood: Unknown (no API key)" ++ [10%N; 10%N]
             ++ lit "Story:" ++ [10%N] ++ lit "(API key missing)" ++ [10%N; 10%N]
             ++ lit "Moral:" ++ [10%N; 10%N]]> (files w).
Proof.
  intros Ht Eb Hro Hst Hname.
  rewrite submit_handler_nonblank by exact Ht.
  change (analyze_mood None dream_input ?w0)
    with (Ok (lit "Unknown (no API key)"), w0).
  cbv beta iota.
  change (generate_story_and_moral None dream_input genre length ?w0)
    with (Ok (lit "(API key missing)", @nil N), w0).
  cbv beta iota.
  destruct (widgets_fold_show
              (results dream_input (lit "Unknown (no API key)")
                 (lit "(API key missing)") [])
              (show (spinner (lit "Analyzing dream and writing story...")) w))
    as (F1 & F2 & F3 & F4 & F5).
  destruct (save_locally_ok dream_input
              (full_text dream_input (lit "Unknown (no API key)")
                 (lit "(API key missing)") [])
              (fold_left (fun w x => show x w)
                 (results dream_input (lit "Unknown (no API key)")
                    (lit "(API key missing)") [])
                 (show (spinner (lit "Analyzing dream and writing story...")) w))
              b
              (lit "Dream:" ++ [10%N] ++ b ++ [10%N; 10%N]
               ++ lit "Mood: Unknown (no API key)" ++ [10%N; 10%N]
               ++ lit "Story:" ++ [10%N] ++ lit "(API key missing)"
               ++ [10%N; 10%N] ++ lit "Moral:" ++ [10%N; 10%N]))
    as (w' & Es & Hw & Hf & Hc).
  - exact Eb.
  - unfold full_text.
    change (lit "Dream:" ++ [10%N] ++ dream_input ++ ?r)
      with ((lit "Dream:" ++ [10%N]) ++ dream_input ++ r).
    rewrite encode_app, (encode_app dream_input), Eb. reflexivity.
  - rewrite F5. exact Hro.
  - rewrite F4, F3. exact Hst.
  - rewrite F4. exact Hname.
  - rewrite Es. exists w'. split; [reflexivity |].
    split; [rewrite Hc, F2; reflexivity |].
    split; [unfold persisted; rewrite Hw; apply last_snoc |].
    rewrite Hf, F3. reflexivity.
Qed.

(** ["I was flying"] on a fresh disk. *)
Lemma placeholders_flying :
  exists w',
    submit_handler None (fun _ => []) (lit "I was flying") (lit "Fantasy")
      (lit "Medium") fresh_world = (Ok tt, w')
    /\ calls w' = []
    /\ persisted w' (lit "stories/dream_8297d9aa.txt").
Proof.
  destruct (placeholders_are_saved_without_client (fun _ => [])
              (lit "I was flying") (lit "Fantasy") (lit "Medium") fresh_world
              (lit "I was flying"))
    as (w' & E & Hc & Hp & _).
  - vm_compute. reflexivity.
  - vm_compute. reflexivity.
  - reflexivity.
  - right. reflexivity.
  - vm_compute. set_solver.
  - exists w'. split; [exact E |]. split; [exact Hc |].
    replace (lit "stories/dream_8297d9aa.txt")
      with (saved_name (lit "I was flying")) by (vm_compute; reflexivity).
    exact Hp.
Defined.

(** X10.  What is saved is what is offered for download: in a persisted
    submission the last two widgets are the download button and the path,
    and the file holds the UTF-8 form of the button's text. *)
Theorem saved_file_is_the_download
    (client : option Client) (exn_str : exn -> str)
    (dream_input genre length : str) (w w' : World) (r : Result unit)
    (fname : str) :
  submit_handler client exn_str dream_input genre length w = (r, w') ->
  persisted w' fname ->
  exists before text data,
    widgets w'
    = before ++ [download_button (lit "Download story as .txt") text
                   (lit "dream_story.txt");
                 info (lit "Saved locally: " ++ fname)]
    /\ encode text = Some data
    /\ files w' !! fname = Some data.
Proof.
  unfold persisted. destruct (truthy (strip dream_input)) eqn:Ht.
  - rewrite submit_handler_nonblank by exact Ht.
    pose proof (analyze_mood_same_page_and_disk client dream_input
                  (show (spinner (lit "Analyzing dream and writing story...")) w))
      as (Pa & _).
    destruct (analyze_mood client dream_input _) as [[mood | ex] wa] eqn:Ha;
      cbn [snd] in *;
      [| intros E P; inversion E; subst; rewrite Pa, last_shown in P;
         discriminate].
    pose proof (generate_same_page_and_disk client dream_input genre length wa)
      as (Pg & _).
    destruct (generate_story_and_moral client dream_input genre length wa)
      as [[[story moral] | ex] wb] eqn:Hg;
      cbn [snd] in *;
      [| intros E P; inversion E; subst; rewrite Pg, Pa, last_shown in P;
         discriminate].
    destruct (before_save _ _ _ _ _ _ _ _ _ _ Ha Hg) as (Hw & _).
    destruct (save_locally_cases dream_input
                (full_text dream_input mood story moral)
                (fold_left (fun w x => show x w)
                   (results dream_input mood story moral) wb))
      as [(b & data & ws & _ & Ed & Es & Hs & Hf) | (ex & ws & Es & Hs)];
      rewrite Es; intros E P; inversion E; subst.
    + rewrite Hs, last_snoc in P. injection P as P. subst fname.
      exists (widgets w
              ++ [spinner (lit "Analyzing dream and writing story...");
                  subheader ([128270%N] ++ lit " Dream Mood"); write mood;
                  subheader ([128214%N] ++ lit " Story"); write story;
                  subheader ([128161%N] ++ lit " Moral");
                  write (if truthy moral then moral
                         else lit "(No explicit moral generated.)")]),
        (full_text dream_input mood story moral), data.
      split; [rewrite Hs, Hw; unfold results; rewrite <- !app_assoc; reflexivity |].
      split; [exact Ed |]. rewrite Hf. apply lookup_insert_eq.
    + rewrite last_shown in P. discriminate.
  - unfold submit_handler. rewrite Ht. cbn [negb].
    intros E P. inversion E; subst. rewrite last_shown in P. discriminate.
Qed.

(** ["I was flying"] with the fox reply. *)
Lemma saved_file_is_the_download_flying :
  exists before text data,
    widgets (snd (submit_handler (Some fox_client) (fun _ => [])
                    (lit "I was flying") (lit "Fantasy") (lit "Medium")
                    fresh_world))
    = before ++ [download_button (lit "Download story as .txt") text
                   (lit "dream_story.txt");
                 info (lit "Saved locally: stories/dream_8297d9aa.txt")]
    /\ encode text = Some data
    /\ files (snd (submit_handler (Some fox_client) (fun _ => [])
                     (lit "I was flying") (lit "Fantasy") (lit "Medium")
                     fresh_world))
       !! lit "stories/dream_8297d9aa.txt" = Some data.
Proof.
  assert (P : persisted
                (snd (submit_handler (Some fox_client) (fun _ => [])
                        (lit "I was flying") (lit "Fantasy") (lit "Medium")
                        fresh_world))
                (lit "stories/dream_8297d9aa.txt"))
    by (vm_compute; reflexivity).
  destruct (submit_handler (Some fox_client) (fun _ => [])
              (lit "I was flying") (lit "Fantasy") (lit "Medium") fresh_world)
    as [r w'] eqn:E.
  cbn [snd] in *.
  exact (saved_file_is_the_download _ _ _ _ _ _ _ _ _ E P).
Defined.

(** X11.  The name is a 32-bit hash, so two different dream texts can
    share it: when the first eight digits of their digests agree, the
    second persisted submission writes the file of the first and replaces
    its text. *)
Theorem colliding_dreams_share_a_file
    (client : option Client) (exn_str : exn -> str)
    (dream1 genre1 length1 dream2 genre2 length2 : str)
    (w0 w1 w2 : World) (r1 r2 : Result unit) (fname1 fname2 : str)
    (b1 b2 : bytes) :
  submit_handler client exn_str dream1 genre1 length1 w0 = (r1, w1) ->
  persisted w1 fname1 ->
  submit_handler client exn_str dream2 genre2 length2 w1 = (r2, w2) ->
  persisted w2 fname2 ->
  encode dream1 = Some b1 -> encode dream2 = Some b2 ->
  slice (hexdigest (sha1 b1)) 0 8 = slice (hexdigest (sha1 b2)) 0 8 ->
  fname1 = fname2
  /\ exists mood story moral data,
       encode (full_text dream2 mood story moral) = Some data
       /\ files w2 !! fname1 = Some data
       /\ files w2 = <[fname1 := data]> (files w0).
Proof.
  intros E1 P1 E2 P2 Eb1 Eb2 Hh.
  destruct (persisted_inv _ _ _ _ _ _ _ _ _ E1 P1)
    as (b1' & _ & _ & _ & data1 & Eb1' & Hn1 & _ & _ & _ & Hf1 & _).
  destruct (persisted_inv _ _ _ _ _ _ _ _ _ E2 P2)
    as (b2' & mood & story & moral & data2 & Eb2' & Hn2 & _ & _ & Ed & Hf2 & _).
  assert (b1' = b1) by congruence. assert (b2' = b2) by congruence.
  subst b1' b2'.
  assert (Hsame : saved_name b1 = saved_name b2)
    by (unfold saved_name; rewrite Hh; reflexivity).
  subst fname1 fname2. split; [exact Hsame |].
  exists mood, story, moral, data2. split; [exact Ed |].
  rewrite Hsame. split; [rewrite Hf2; apply lookup_insert_eq |].
  rewrite Hf2, Hf1, Hsame. apply insert_insert_eq.
Qed.

(** Two dreams whose digests both start with [2f32981a]. *)
Lemma colliding_dreams_house_and_street :
  lit "I saw house 5954 in my dream" <> lit "I was lost in street 9547"
  /\ exists (r1 r2 : Result unit) (w1 w2 : World) (data : bytes),
       submit_handler (Some fox_client) (fun _ => [])
         (lit "I saw house 5954 in my dream") (lit "Fantasy") (lit "Medium")
         fresh_world = (r1, w1)
       /\ submit_handler (Some fox_client) (fun _ => [])
            (lit "I was lost in street 9547") (lit "Mystery") (lit "Short")
            w1 = (r2, w2)
       /\ files w1 !! lit "stories/dream_2f32981a.txt" <> None
       /\ files w2 = <[lit "stories/dream_2f32981a.txt" := data]> ∅.
Proof.
  split; [discriminate |].
  assert (P1 : persisted
                 (snd (submit_handler (Some fox_client) (fun _ => [])
                         (lit "I saw house 5954 in my dream") (lit "Fantasy")
                         (lit "Medium") fresh_world))
                 (lit "stories/dream_2f32981a.txt"))
    by (vm_compute; reflexivity).
  assert (P2 : persisted
                 (snd (submit_handler (Some fox_client) (fun _ => [])
                         (lit "I was lost in street 9547") (lit "Mystery")
                         (lit "Short")
                         (snd (submit_handler (Some fox_client) (fun _ => [])
                                 (lit "I saw house 5954 in my dream")
                                 (lit "Fantasy") (lit "Medium") fresh_world))))
                 (lit "stories/dream_2f32981a.txt"))
    by (vm_compute; reflexivity).
  destruct (submit_handler (Some fox_client) (fun _ => [])
              (lit "I saw house 5954 in my dream") (lit "Fantasy")
              (lit "Medium") fresh_world) as [r1 w1] eqn:E1.
  cbn [snd] in P1, P2.
  destruct (submit_handler (Some fox_client) (fun _ => [])
              (lit "I was lost in street 9547") (lit "Mystery") (lit "Short") w1)
    as [r2 w2] eqn:E2.
  cbn [snd] in P2.
  destruct (colliding_dreams_share_a_file _ _ _ _ _ _ _ _ _ _ _ _ _ _ _
              (lit "I saw house 5954 in my dream")
              (lit "I was lost in street 9547") E1 P1 E2 P2)
    as (_ & mood & story & moral & data & _ & _ & Hf);
    [vm_compute; reflexivity | vm_compute; reflexivity
    | vm_compute; reflexivity |].
  destruct (persisted_inv _ _ _ _ _ _ _ _ _ E1 P1)
    as (b & _ & _ & _ & d1 & _ & _ & _ & _ & _ & Hf1 & _).
  exists r1, r2, w1, w2, data.
  split; [reflexivity |]. split; [exact E2 |].
  split; [rewrite Hf1, lookup_insert_eq; discriminate | exact Hf].
Defined.

(** X12.  A submission sends at most two requests, in the order mood,
    story, and none at all for a blank dream or without a client; the log
    of requests only grows. *)
Theorem at_most_two_requests
    (client : option Client) (exn_str : exn -> str)
    (dream_input genre length : str) (w : World) :
  exists sent,
    calls (snd (submit_handler client exn_str dream_input genre length w))
      = calls w ++ sent
    /\ (sent = [] \/ sent = [mood_request dream_input]
        \/ sent = [mood_request dream_input;
                   story_request dream_input genre length])
    /\ (client = None -> sent = [])
    /\ (strip dream_input = [] -> sent = []).
Proof.
  destruct (truthy (strip dream_input)) eqn:Ht.
  - assert (Hne : strip dream_input <> [])
      by (destruct (strip dream_input); [discriminate | congruence]).
    rewrite submit_handler_nonblank by exact Ht.
    destruct client as [cl |].
    + pose proof (analyze_mood_calls cl dream_input
                    (show (spinner (lit "Analyzing dream and writing story...")) w))
        as Ca.
      destruct (analyze_mood (Some cl) dream_input _) as [[mood | ex] wa] eqn:Ha;
        cbn [snd calls show] in *.
      * pose proof (generate_calls cl dream_input genre length wa) as Cg.
        destruct (generate_story_and_moral (Some cl) dream_input genre length wa)
          as [[[story moral] | ex] wb] eqn:Hg; cbn [snd] in *.
        -- destruct (before_save _ _ _ _ _ _ _ _ _ _ Ha Hg) as (_ & _ & _ & _ & Fc).
           pose proof (save_locally_frame dream_input
                         (full_text dream_input mood story moral)
                         (fold_left (fun w x => show x w)
                            (results dream_input mood story moral) wb))
             as (Sc & _).
           exists [mood_request dream_input;
                   story_request dream_input genre length].
           split; [| split; [auto | split; [discriminate | contradiction]]].
           destruct (save_locally dream_input _ _) as [[a | ex] ws];
             cbn [snd calls show] in *;
             rewrite Sc, Fc, Cg, Ca, <- app_assoc; reflexivity.
        -- exists [mood_request dream_input;
                   story_request dream_input genre length].
           split; [rewrite Cg, Ca, <- app_assoc; reflexivity |].
           split; [auto | split; [discriminate | contradiction]].
      * exists [mood_request dream_input].
        split; [exact Ca |].
        split; [auto | split; [discriminate | contradiction]].
    + exists []. rewrite app_nil_r.
      split; [| split; [auto | split; [reflexivity | contradiction]]].
      change (analyze_mood None dream_input ?w0)
        with (Ok (lit "Unknown (no API key)"), w0).
      cbv beta iota.
      change (generate_story_and_moral None dream_input genre length ?w0)
        with (Ok (lit "(API key missing)", @nil N), w0).
      cbv beta iota.
      destruct (widgets_fold_show
                  (results dream_input (lit "Unknown (no API key)")
                     (lit "(API key missing)") [])
                  (show (spinner (lit "Analyzing dream and writing story...")) w))
        as (_ & F2 & _).
      pose proof (save_locally_frame dream_input
                    (full_text dream_input (lit "Unknown (no API key)")
                       (lit "(API key missing)") [])
                    (fold_left (fun w x => show x w)
                       (results dream_input (lit "Unknown (no API key)")
                          (lit "(API key missing)") [])
                       (show (spinner (lit "Analyzing dream and writing story...")) w)))
        as (Sc & _).
      destruct (save_locally dream_input _ _) as [[a | ex] ws];
        cbn [snd calls show] in *; rewrite Sc, F2; reflexivity.
  - exists []. rewrite app_nil_r. unfold submit_handler. rewrite Ht.
    split; [reflexivity |]. split; [auto |]. split; reflexivity.
Qed.

(** X4.  What the two functions return is stripped: the mood label, the
    story and the moral never start or end with whitespace, whatever the
    service replies. *)
Theorem returned_texts_are_stripped
    (client : option Client) (dream_text genre length : str) (w : World) :
  (forall mood w',
     analyze_mood client dream_text w = (Ok mood, w') -> strip mood = mood)
  /\ (forall story moral w',
        generate_story_and_moral client dream_text genre length w
          = (Ok (story, moral), w') ->
        strip story = story /\ strip moral = moral).
Proof.
  split.
  - intros mood w'. unfold analyze_mood.
    destruct client as [cl |];
      [| intros E; inversion E; vm_compute; reflexivity].
    unfold bind, chat_completions_create.
    destruct (create cl _ _) as [e | [|[c|] resp]]; simpl; intros E;
      inversion E. apply strip_idem.
  - intros story moral w'. unfold generate_story_and_moral.
    destruct client as [cl |];
      [| intros E; inversion E; split; vm_compute; reflexivity].
    unfold bind, chat_completions_create.
    destruct (create cl _ _) as [e | [|[c|] resp]]; simpl; intros E;
      inversion E as [[Hs Hw]].
    pose proof (story_is_stripped (strip c) (strip_idem c)) as H1.
    pose proof (moral_is_stripped (strip c)) as H2.
    rewrite Hs in H1, H2. split; assumption.
Qed.

(** A witness for the texts returned: the fox reply with blanks around. *)
Lemma returned_texts_fox :
  strip (lit "A fox ran.") = lit "A fox ran."
  /\ strip (lit "Be brave.") = lit "Be brave.".
Proof.
  destruct (returned_texts_are_stripped (Some fox_client) (lit "I was flying")
              (lit "Fantasy") (lit "Medium") fresh_world) as [_ H].
  apply (H (lit "A fox ran.") (lit "Be brave.")
           (log_call (story_request (lit "I was flying") (lit "Fantasy")
                        (lit "Medium")) fresh_world)).
  vm_compute. reflexivity.
Defined.

(** ** Start-up and the example buttons *)

Import Script.

(** X13.  A key that is set but empty in the process environment counts
    as missing, even when the [.env] file holds a key: the warning is
    shown and there is no client. *)
Theorem empty_key_counts_as_missing
    (OpenAI : str -> Client) (dotenv environ : gmap str str) (w : World) :
  environ !! lit "OPENAI_API_KEY" = Some [] ->
  startup OpenAI dotenv environ w
    = (Ok None,
       show (warning (lit "OPENAI_API_KEY not found. Please set it as an environment variable or in a .env file.")) w).
Proof.
  intros H. unfold startup, load_dotenv.
  rewrite (lookup_union_Some_l environ dotenv _ _ H). reflexivity.
Qed.

(** An empty key exported in the shell, a real one in [.env]. *)
Lemma empty_key_masks_dotenv :
  fst (startup (fun _ => fox_client)
         {[lit "OPENAI_API_KEY" := lit "sk-test"]}
         {[lit "OPENAI_API_KEY" := []]} fresh_world)
    = Ok None.
Proof.
  rewrite (empty_key_counts_as_missing (fun _ => fox_client)
             {[lit "OPENAI_API_KEY" := lit "sk-test"]}
             {[lit "OPENAI_API_KEY" := []]} fresh_world).
  - reflexivity.
  - apply lookup_singleton_eq.
Defined.

(** After the three buttons the key is in session state when a button was
    clicked or the key was there before, and the other spelling is there
    only when it was there before. *)
Lemma footer_outcome (flying lost exam : bool) (s : Session) :
  (fst (footer flying lost exam s) = Rerun
   <-> flying || lost || exam = true
       \/ lit "__autofill" ∈ dom (session_state s)
       \/ lit " __autofill" ∈ dom (session_state s))
  /\ (flying || lost || exam = true
      \/ lit "__autofill" ∈ dom (session_state s)
      -> lit "__autofill" ∈ dom (session_state (snd (footer flying lost exam s))))
  /\ last (page (snd (footer flying lost exam s)))
     = Some match fst (footer flying lost exam s) with
            | Finished =>
                caption (lit "Requirements: streamlit, openai (official), python-dotenv (optional). See the canvas code for full details.")
            | Rerun => button (lit "Unexpected exam")
            end.
Proof.
  unfold footer.
  destruct flying, lost, exam;
    cbn [render set_state experimental_set_query_params session_state page
         orb];
    rewrite ?dom_insert_L;
    repeat case_bool_decide;
    cbn [orb fst snd page session_state render set_state
         experimental_set_query_params];
    rewrite ?dom_insert_L;
    (split; [split; [intros Hq; try discriminate Hq;
                     first [left; reflexivity | right; set_solver]
                    | intros Hq;
                      first [ reflexivity
                            | exfalso; clear Hq; set_solver
                            | exfalso; destruct Hq as [Hq | Hq];
                              [discriminate Hq | set_solver] ]] |]);
    (split; [intros Hq;
             first [ set_solver
                   | destruct Hq as [Hq | Hq];
                     [discriminate Hq | set_solver] ] |]);
    apply last_snoc.
Qed.

(** X14.  A run of the footer ends in a rerun request exactly when an
    example button was clicked or session state holds the autofill key in
    either spelling; only otherwise is the requirements caption rendered,
    as the last element. *)
Theorem rerun_exactly_on_click_or_key (flying lost exam : bool) (s : Session) :
  (fst (footer flying lost exam s) = Rerun
   <-> flying || lost || exam = true
       \/ lit "__autofill" ∈ dom (session_state s)
       \/ lit " __autofill" ∈ dom (session_state s))
  /\ (fst (footer flying lost exam s) = Finished
      <-> last (page (snd (footer flying lost exam s)))
          = Some (caption (lit "Requirements: streamlit, openai (official), python-dotenv (optional). See the canvas code for full details."))).
Proof.
  destruct (footer_outcome flying lost exam s) as (H1 & _ & H3).
  split; [exact H1 |]. rewrite H3.
  destruct (fst (footer flying lost exam s)); split; intros H;
    try reflexivity; discriminate H.
Qed.

(** X15.  The key is never removed: after a click on an example button
    that run and every later run of the footer ends in a rerun request,
    whatever is clicked later, so the caption is not rendered again. *)
Theorem example_click_reruns_forever
    (flying lost exam : bool) (clicks : list (bool * bool * bool))
    (s : Session) :
  flying || lost || exam = true ->
  Forall (fun c => c = Rerun) (replay ((flying, lost, exam) :: clicks) s).
Proof.
  intros Hclick.
  assert (G : forall clicks s, lit "__autofill" ∈ dom (session_state s) ->
                Forall (fun c => c = Rerun) (replay clicks s)).
  { clear. intros clicks. induction clicks as [|[[a b] c] clicks IH];
      intros s Hs; [constructor |].
    destruct (footer_outcome a b c s) as (H1 & H2 & _).
    cbn [replay]. constructor.
    - apply H1. right. left. exact Hs.
    - apply IH. cbn [session_state]. apply H2. right. exact Hs. }
  destruct (footer_outcome flying lost exam s) as (H1 & H2 & _).
  cbn [replay]. constructor.
  - apply H1. left. exact Hclick.
  - apply G. cbn [session_state]. apply H2. left. exact Hclick.
Qed.

(** One click on the first button, then three runs without a click. *)
Lemma example_click_then_idle :
  replay [(true, false, false); (false, false, false); (false, false, false);
          (false, false, false)]
    {| session_state := ∅; query_params := ∅; page := [] |}
  = [Rerun; Rerun; Rerun; Rerun].
Proof.
  pose proof (example_click_reruns_forever true false false
                [(false, false, false); (false, false, false);
                 (false, false, false)]
                {| session_state := ∅; query_params := ∅; page := [] |}
                eq_refl) as H.
  cbn [replay] in *.
  repeat match goal with
         | H : Forall _ (_ :: _) |- _ =>
             apply Forall_cons in H; destruct H as [-> H]
         end.
  reflexivity.
Defined.
